(** * Yandex 360 Disk trigger: the polling change-detection engine

    A shallow embedding of [nodes/Yandex360Disk/GenericFunctions.ts] (the
    filter pipeline) and of [Yandex360DiskTrigger.poll] (one poll cycle),
    with the properties of the checkpoint [lastTimeChecked] and of every
    filter stage.

    Conventions of the embedding
    - a JavaScript string is a [string]; each [ascii] stands for one UTF-16
      code unit below 256, so the white space that [String.prototype.trim]
      removes is the set 9, 10, 11, 12, 13, 32, 160;
    - [new Date(s).getTime()] is an interface ([JsDate]): it answers the
      milliseconds since the epoch as a [Z], or [None] for [NaN].  Every
      comparison with [NaN] is false.  The time values of a Date stay within
      8.64e15 in absolute value, so the sums and differences taken by the
      filters are exact in double precision and [Z] arithmetic is faithful;
    - a [throw] is the [Throw] case of [result]; the static data of the node
      ([getWorkflowStaticData('node')]) is a finite map from keys to strings,
      threaded through [poll] by a small state-and-exception monad. *)

From stdpp Require Import gmap strings list.
From Stdlib Require Import ZArith Ascii String List Lia Bool.
Import ListNotations.

Local Open Scope string_scope.
Local Open Scope Z_scope.

(** ** JavaScript strings *)

Module Js.

(** [s.startsWith(p)] *)
Fixpoint startsWith (p s : string) : bool :=
  match p with
  | EmptyString => true
  | String a p' =>
      match s with
      | EmptyString => false
      | String b s' => if Ascii.eqb a b then startsWith p' s' else false
      end
  end.

(** [s.endsWith(p)]: [p] is one of the tails of [s]. *)
Fixpoint endsWith (p s : string) : bool :=
  String.eqb p s
  || match s with
     | EmptyString => false
     | String _ s' => endsWith p s'
     end.

(** White space and line terminators of ECMAScript among the code units
    below 256: TAB, LF, VT, FF, CR, SP and NBSP. *)
Definition isWhiteSpace (c : ascii) : bool :=
  let n := nat_of_ascii c in
  ((9 <=? n)%nat && (n <=? 13)%nat) || (n =? 32)%nat || (n =? 160)%nat.

Fixpoint trimStart (s : string) : string :=
  match s with
  | EmptyString => EmptyString
  | String c s' => if isWhiteSpace c then trimStart s' else s
  end.

Fixpoint trimEnd (s : string) : string :=
  match s with
  | EmptyString => EmptyString
  | String c s' =>
      match trimEnd s' with
      | EmptyString => if isWhiteSpace c then EmptyString else String c EmptyString
      | t => String c t
      end
  end.

(** [s.trim()] *)
Definition trim (s : string) : string := trimEnd (trimStart s).

(** [s.slice(0, -1)]: all but the last code unit. *)
Fixpoint dropLast (s : string) : string :=
  match s with
  | EmptyString => EmptyString
  | String c EmptyString => EmptyString
  | String c s' => String c (dropLast s')
  end.

(** A string of white space only, the empty string included. *)
Fixpoint isBlank (s : string) : bool :=
  match s with
  | EmptyString => true
  | String c s' => isWhiteSpace c && isBlank s'
  end.

(** Truthiness of a string: only the empty string is falsy. *)
Definition truthy (s : string) : bool := negb (String.eqb s "").

(** [(v as string) || d] for a property that may be absent. *)
Definition orElse (v : option string) (d : string) : string :=
  match v with
  | Some s => if truthy s then s else d
  | None => d
  end.

(** Errors that the trigger throws or lets through. *)
Inductive Error : Type :=
  | PlainError (message : string)
  | TypeError (message : string)
  | NodeOperationError (message : string)
  | NodeApiError (message : string) (description : option string).

(** [error instanceof NodeApiError] *)
Definition isNodeApiError (e : Error) : bool :=
  match e with NodeApiError _ _ => true | _ => false end.

(** [error instanceof NodeOperationError] *)
Definition isNodeOperationError (e : Error) : bool :=
  match e with NodeOperationError _ => true | _ => false end.

(** The outcome of an expression that may throw. *)
Inductive result (A : Type) : Type :=
  | Ok (value : A)
  | Throw (error : Error).
Arguments Ok {A} value.
Arguments Throw {A} error.

(** The own property names of [Object.prototype]: a lookup of one of them
    in an object literal finds a function (or, for [__proto__], the
    prototype itself), never [undefined]. *)
Definition objectPrototypeKeys : list string :=
  [ "constructor"; "__defineGetter__"; "__defineSetter__"; "hasOwnProperty";
    "__lookupGetter__"; "__lookupSetter__"; "isPrototypeOf";
    "propertyIsEnumerable"; "toString"; "valueOf"; "__proto__";
    "toLocaleString" ].

Definition inObjectPrototype (k : string) : bool :=
  existsb (String.eqb k) objectPrototypeKeys.

End Js.

(** [new Date(s).getTime()]: milliseconds since the epoch, [None] for NaN. *)
Class JsDate : Type := { getTime : string -> option Z }.

(** ** types.ts *)

Module Types.

(** The [type] field of a resource: ['dir' | 'file']. *)
Inductive ResourceType : Type := dir | file.

(** [IYandexDiskResource] *)
Record IYandexDiskResource : Type := {
  name : string;
  path : string;
  type : ResourceType;
  mime_type : option string;
  media_type : option string;
  created : string;
  modified : string;
  size : option Z;
  md5 : option string;
  sha256 : option string
}.

(** [IYandexDiskTriggerOptions] (the fields that [poll] reads) *)
Record IYandexDiskTriggerOptions : Type := {
  fileType : option string;
  limit : option Z
}.

Definition EVENTS_CREATED : string := "created".
Definition EVENTS_UPDATED : string := "updated".
Definition LOCATIONS_ROOT : string := "root".
Definition LOCATIONS_SPECIFIC_PATH : string := "specificPath".
Definition FILE_TYPES_ALL : string := "all".

End Types.

(** ** GenericFunctions.ts *)

Module GenericFunctions.
Import Js Types.

(** The literal [typeMap] of [filterByFileType]: its own properties. *)
Definition typeMap (fileType : string) : option (list string) :=
  if String.eqb fileType "document" then
    Some ["application/pdf"; "application/msword"; "application/vnd."; "text/"]
  else if String.eqb fileType "image" then Some ["image/"]
  else if String.eqb fileType "video" then Some ["video/"]
  else if String.eqb fileType "audio" then Some ["audio/"]
  else if String.eqb fileType "archive" then
    Some ["application/zip"; "application/x-rar"; "application/x-tar";
          "application/gzip"]
  else None.

(** [patterns.some((pattern) => mimeType.startsWith(pattern))] with
    [mimeType = item.mime_type || ''] *)
Definition matchesPatterns (patterns : list string) (item : IYandexDiskResource) : bool :=
  let mimeType := orElse (mime_type item) "" in
  existsb (fun pattern => startsWith pattern mimeType) patterns.

(** [filterByFileType(items, fileType)].  [typeMap[fileType] || []] is the
    own list of a category, the empty list for a name the literal does not
    have, and for a name inherited from [Object.prototype] a value without
    [some]: the callback then throws at the first item. *)
Definition filterByFileType (items : list IYandexDiskResource) (fileType : string)
  : result (list IYandexDiskResource) :=
  if String.eqb fileType "all" then Ok items
  else
    match typeMap fileType with
    | Some patterns => Ok (List.filter (matchesPatterns patterns) items)
    | None =>
        if inObjectPrototype fileType then
          match items with
          | [] => Ok []
          | _ :: _ => Throw (TypeError "patterns.some is not a function")
          end
        else Ok (List.filter (matchesPatterns []) items)
    end.

(** [applyLimit(items, limit)] *)
Definition applyLimit (items : list IYandexDiskResource) (limit : Z)
  : list IYandexDiskResource :=
  if limit <=? 0 then items else firstn (Z.to_nat limit) items.

(** The path that [filterByPath] compares with, for a target path that is
    neither empty nor ["/"]. *)
Definition normalizePath (targetPath : string) : string :=
  let normalizedPath := trim targetPath in
  let normalizedPath :=
    if negb (startsWith "disk:" normalizedPath) then
      let normalizedPath :=
        if negb (startsWith "/" normalizedPath) then "/" ++ normalizedPath
        else normalizedPath in
      "disk:" ++ normalizedPath
    else normalizedPath in
  if endsWith "/" normalizedPath && negb (String.eqb normalizedPath "disk:/")
  then dropLast normalizedPath
  else normalizedPath.

(** [item.path === normalizedPath || item.path.startsWith(normalizedPath + '/')] *)
Definition underPath (normalizedPath : string) (item : IYandexDiskResource) : bool :=
  String.eqb (path item) normalizedPath || startsWith (normalizedPath ++ "/") (path item).

(** [filterByPath(items, targetPath)] *)
Definition filterByPath (items : list IYandexDiskResource) (targetPath : string)
  : list IYandexDiskResource :=
  if negb (truthy targetPath) || String.eqb targetPath "/" then items
  else
    let normalizedPath := normalizePath targetPath in
    if String.eqb normalizedPath "disk:/" then items
    else List.filter (underPath normalizedPath) items.

Section Timestamps.
Context `{JsDate}.

(** [Math.abs(created - modified) < 1000] *)
Definition isCreated (item : IYandexDiskResource) : bool :=
  match getTime (created item), getTime (modified item) with
  | Some created, Some modified => Z.abs (created - modified) <? 1000
  | _, _ => false
  end.

(** [modified > created + 1000] *)
Definition isUpdated (item : IYandexDiskResource) : bool :=
  match getTime (created item), getTime (modified item) with
  | Some created, Some modified => created + 1000 <? modified
  | _, _ => false
  end.

(** [filterByEventType(items, event)] *)
Definition filterByEventType (items : list IYandexDiskResource) (event : string)
  : list IYandexDiskResource :=
  if String.eqb event "all" then items
  else if String.eqb event "created" then List.filter isCreated items
  else if String.eqb event "updated" then List.filter isUpdated items
  else items.

(** [modifiedTime > startTime && modifiedTime <= endTime] *)
Definition inWindow (startTime endTime : option Z) (item : IYandexDiskResource) : bool :=
  match getTime (modified item), startTime, endTime with
  | Some modifiedTime, Some startTime, Some endTime =>
      (startTime <? modifiedTime) && (modifiedTime <=? endTime)
  | _, _, _ => false
  end.

(** [filterByModifiedTime(items, startDate, endDate)] *)
Definition filterByModifiedTime (items : list IYandexDiskResource)
    (startDate endDate : string) : list IYandexDiskResource :=
  let startTime := getTime startDate in
  let endTime := getTime endDate in
  List.filter (inWindow startTime endTime) items.

End Timestamps.

End GenericFunctions.

(** ** Yandex360DiskTrigger.node.ts *)

Module Trigger.
Import Js Types GenericFunctions.

(** The argument of [api.recent]. *)
Record RecentOptions : Type := {
  recent_limit : Z;
  recent_media_type : option string
}.

(** What [api.recent] resolves to: [response.body] may lack a usable
    object, and the object may lack [items]. *)
Record ResponseBody : Type := { items : option (list IYandexDiskResource) }.
Record Response : Type := { status : Z; body : option ResponseBody }.

(** The client that [sdk({ token })] builds (the remote storage API). *)
Record Api : Type := { recent : RecentOptions -> result Response }.

(** [ICredentialDataDecryptedObject] *)
Record Credentials : Type := { oauthToken : option string }.

(** [INodeExecutionData] and [this.helpers.returnJsonArray] *)
Record INodeExecutionData : Type := { json : IYandexDiskResource }.

Definition returnJsonArray (items : list IYandexDiskResource) : list INodeExecutionData :=
  List.map (fun item => {| json := item |}) items.

(** What the host hands to one invocation of [poll]: the mode, the node
    parameters ([getNodeParameter] may throw), the credentials, the clock
    read by [moment().utc().format()] and the SDK, whose answers belong to
    the moment of the invocation. *)
Record IPollFunctions : Type := {
  getMode : string;
  param_event : result string;
  param_location : result string;
  param_path : result string;
  param_options : result IYandexDiskTriggerOptions;
  getCredentials : result Credentials;
  moment_utc_format : string;
  sdk : string -> Api
}.

(** Sequencing of expressions that may throw. *)
#[global] Instance result_ret : MRet result := fun A a => Ok a.

#[global] Instance result_bind : MBind result := fun A B f r =>
  match r with
  | Ok a => f a
  | Throw e => Throw e
  end.

(** The three parameters that [poll] reads before its [try]. *)
Record Parameters : Type := {
  event : string;
  location : string;
  options : IYandexDiskTriggerOptions
}.

Definition readParameters (this : IPollFunctions) : result Parameters :=
  event ← param_event this;
  location ← param_location this;
  options ← param_options this;
  mret {| event := event; location := location; options := options |}.

(** Computations over the static data of the node that may throw.  A
    [throw] keeps the writes made before it, as in JavaScript. *)
Definition M (A : Type) : Type :=
  gmap string string -> gmap string string * result A.

#[global] Instance M_ret : MRet M := fun A a webhookData => (webhookData, Ok a).

#[global] Instance M_bind : MBind M := fun A B f m webhookData =>
  match m webhookData with
  | (webhookData', Ok a) => f a webhookData'
  | (webhookData', Throw e) => (webhookData', Throw e)
  end.

Definition throw {A : Type} (e : Error) : M A := fun webhookData => (webhookData, Throw e).

Definition lift {A : Type} (r : result A) : M A := fun webhookData => (webhookData, r).

(** [try { m } catch (error) { handler }] *)
Definition try_catch {A : Type} (m : M A) (handler : Error -> M A) : M A :=
  fun webhookData =>
    match m webhookData with
    | (webhookData', Ok a) => (webhookData', Ok a)
    | (webhookData', Throw e) => handler e webhookData'
    end.

Definition getStaticData : M (gmap string string) :=
  fun webhookData => (webhookData, Ok webhookData).

(** [webhookData[key] = value] *)
Definition setStaticData (key value : string) : M unit :=
  fun webhookData => (<[key := value]> webhookData, Ok tt).

(** [initializeYandexDiskApi(credentials)] of GenericFunctions.ts *)
Definition initializeYandexDiskApi (sdk : string -> Api) (credentials : Credentials)
  : result Api :=
  match oauthToken credentials with
  | Some token =>
      if truthy token then Ok (sdk token)
      else Throw (PlainError "OAuth token not found in credentials")
  | None => Throw (PlainError "OAuth token not found in credentials")
  end.

(** [items = (responseBody.items as IYandexDiskResource[]) || []], guarded
    by the shape test on [responseBody]; [items] starts as [[]]. *)
Definition itemsOf (response : Response) : list IYandexDiskResource :=
  match body response with
  | Some responseBody =>
      match items responseBody with
      | Some l => l
      | None => []
      end
  | None => []
  end.

(** [options.limit || 50] *)
Definition userLimitOf (options : IYandexDiskTriggerOptions) : Z :=
  match limit options with
  | Some l => if l =? 0 then 50 else l
  | None => 50
  end.

(** [options.fileType || FILE_TYPES.ALL] *)
Definition fileTypeOf (options : IYandexDiskTriggerOptions) : string :=
  orElse (fileType options) FILE_TYPES_ALL.

(** What the [catch] of the manual branch throws: a [NodeApiError] goes
    through, anything else is wrapped. *)
Definition manualCatch (error : Error) : Error :=
  if isNodeApiError error then error
  else NodeApiError "Failed to fetch recent files from Yandex Disk"
         (Some "Check your OAuth credentials and try again").

(** What the [catch] of the automated branch throws, whatever it caught. *)
Definition fetchFailed : Error :=
  NodeApiError "Failed to fetch recent files from Yandex Disk"
    (Some "Check your OAuth credentials and configuration").

(** What the outermost [catch] throws: a [NodeApiError] or a
    [NodeOperationError] goes through, anything else is wrapped. *)
Definition outerCatch (error : Error) : Error :=
  if isNodeApiError error || isNodeOperationError error then error
  else NodeApiError "An error occurred in Yandex 360 Disk Trigger" None.

(** [this.getMode() === 'manual'] *)
Definition isManual (this : IPollFunctions) : bool := String.eqb (getMode this) "manual".

Section Poll.
Context `{JsDate}.

(** The table [FILE_TYPE_TO_MEDIA_TYPE] of types.ts maps a file type to
    the media type that the remote API filters by; [poll] only forwards
    what it finds there. *)
Variable FILE_TYPE_TO_MEDIA_TYPE : string -> option string.

(** The argument that the automated branch gives to [api.recent]. *)
Definition recentOptionsOf (options : IYandexDiskTriggerOptions) : RecentOptions :=
  let fileType := fileTypeOf options in
  let mediaType := FILE_TYPE_TO_MEDIA_TYPE fileType in
  let userLimit := userLimitOf options in
  let apiLimit := Z.min userLimit 1000 in
  {| recent_limit := apiLimit;
     recent_media_type :=
       match mediaType with
       | Some m => if truthy m then Some m else None
       | None => None
       end |}.

(** The filters of the automated branch, in the order of the source. *)
Definition pipeline (this : IPollFunctions) (parameters : Parameters)
    (startDate endDate : string) (items : list IYandexDiskResource)
  : result (list IYandexDiskResource) :=
  let fileType := fileTypeOf (options parameters) in
  let userLimit := userLimitOf (options parameters) in
  let items := filterByModifiedTime items startDate endDate in
  let items := filterByEventType items (event parameters) in
  items ←
    (if String.eqb (location parameters) LOCATIONS_SPECIFIC_PATH then
       path ← param_path this;
       mret (filterByPath items path)
     else mret items);
  items ← filterByFileType items fileType;
  mret (applyLimit items userLimit).

(** The manual branch: the body of [if (this.getMode() === 'manual')]. *)
Definition pollManual (api : Api) : M (option (list (list INodeExecutionData))) :=
  try_catch
    (response ← lift (recent api {| recent_limit := 1; recent_media_type := None |});
     let items := itemsOf response in
     if (length items =? 0)%nat then
       throw (NodeApiError "No recent files found in Yandex Disk"
                (Some "Upload some files to your Yandex Disk to test this trigger"))
     else mret (Some [returnJsonArray items]))
    (fun error => throw (manualCatch error)).

(** The inner [try] of the automated branch: fetch, then filter. *)
Definition fetchAndFilter (this : IPollFunctions) (parameters : Parameters) (api : Api)
    (startDate endDate : string) : M (list IYandexDiskResource) :=
  try_catch
    (response ← lift (recent api (recentOptionsOf (options parameters)));
     lift (pipeline this parameters startDate endDate (itemsOf response)))
    (fun error => throw fetchFailed).

(** [poll]: one cycle.  The result [None] is the [null] of the source;
    [Some [batch]] is the one-output array [[returnJsonArray(items)]]. *)
Definition poll (this : IPollFunctions) : M (option (list (list INodeExecutionData))) :=
  parameters ← lift (readParameters this);
  try_catch
    (credentials ← lift (getCredentials this);
     api ← lift (initializeYandexDiskApi (sdk this) credentials);
     let now := moment_utc_format this in
     webhookData ← getStaticData;
     let startDate := orElse (webhookData !! "lastTimeChecked") now in
     let endDate := now in
     if isManual this then pollManual api
     else
       items ← fetchAndFilter this parameters api startDate endDate;
       setStaticData "lastTimeChecked" endDate;;
       if (0 <? length items)%nat then mret (Some [returnJsonArray items])
       else mret None)
    (fun error => throw (outerCatch error)).

(** The filtered set of an automated cycle: what [items] holds when the
    inner [try] completes, or what that [try] caught. *)
Definition filteredSet (this : IPollFunctions) (parameters : Parameters) (api : Api)
    (webhookData : gmap string string) : result (list IYandexDiskResource) :=
  let now := moment_utc_format this in
  response ← recent api (recentOptionsOf (options parameters));
  pipeline this parameters (orElse (webhookData !! "lastTimeChecked") now) now
    (itemsOf response).

(** The static data after a series of invocations, oldest first. *)
Fixpoint runCycles (cycles : list IPollFunctions) (webhookData : gmap string string)
  : gmap string string :=
  match cycles with
  | [] => webhookData
  | this :: rest => runCycles rest (fst (poll this webhookData))
  end.

(** The ways a cycle can go: where it stops and what it leaves and answers. *)
Inductive cycle (this : IPollFunctions) (webhookData : gmap string string)
  : gmap string string * result (option (list (list INodeExecutionData))) -> Prop :=
  | cycle_no_parameters e :
      readParameters this = Throw e ->
      cycle this webhookData (webhookData, Throw e)
  | cycle_no_api parameters e :
      readParameters this = Ok parameters ->
      getCredentials this = Throw e
      \/ (exists credentials, getCredentials this = Ok credentials
            /\ initializeYandexDiskApi (sdk this) credentials = Throw e) ->
      cycle this webhookData (webhookData, Throw (outerCatch e))
  | cycle_manual parameters credentials api outcome :
      readParameters this = Ok parameters ->
      getCredentials this = Ok credentials ->
      initializeYandexDiskApi (sdk this) credentials = Ok api ->
      isManual this = true ->
      (forall e, outcome = Throw e -> isNodeApiError e = true) ->
      cycle this webhookData (webhookData, outcome)
  | cycle_fetch_failed parameters credentials api e :
      readParameters this = Ok parameters ->
      getCredentials this = Ok credentials ->
      initializeYandexDiskApi (sdk this) credentials = Ok api ->
      isManual this = false ->
      filteredSet this parameters api webhookData = Throw e ->
      cycle this webhookData (webhookData, Throw fetchFailed)
  | cycle_completed parameters credentials api items :
      readParameters this = Ok parameters ->
      getCredentials this = Ok credentials ->
      initializeYandexDiskApi (sdk this) credentials = Ok api ->
      isManual this = false ->
      filteredSet this parameters api webhookData = Ok items ->
      cycle this webhookData
        (<["lastTimeChecked" := moment_utc_format this]> webhookData,
         Ok (if (0 <? length items)%nat then Some [returnJsonArray items] else None)).

End Poll.

(** The checkpoint as a time value: [new Date(lastTimeChecked).getTime()]. *)
Definition checkpointTime `{JsDate} (webhookData : gmap string string) : option Z :=
  match webhookData !! "lastTimeChecked" with
  | Some s => getTime s
  | None => None
  end.

End Trigger.

(** ** An instance of [JsDate] for ISO 8601 date-times

    The timestamps of the remote API ([2025-12-14T10:00:00+00:00]), of
    [toISOString] ([2025-12-14T10:00:00.000Z]) and of
    [moment().utc().format()] ([2025-12-14T10:00:00Z]) all have the shape
    [YYYY-MM-DDTHH:mm:ss], an optional [.sss] and a zone [Z] or [+HH:mm] /
    [-HH:mm].  [IsoDate.parse] reads that shape and answers [None]
    elsewhere; the examples below run the filters with it. *)

Module IsoDate.

Definition digit (c : ascii) : option Z :=
  let n := Z.of_nat (nat_of_ascii c) in
  if (48 <=? n) && (n <=? 57) then Some (n - 48) else None.

(** Read exactly [n] decimal digits. *)
Fixpoint digits (n : nat) (acc : Z) (s : string) : option (Z * string) :=
  match n with
  | O => Some (acc, s)
  | S n' =>
      match s with
      | String c s' =>
          match digit c with
          | Some d => digits n' (10 * acc + d) s'
          | None => None
          end
      | EmptyString => None
      end
  end.

(** Read the code unit [c]. *)
Definition expect (c : ascii) (s : string) : option string :=
  match s with
  | String c' s' => if Ascii.eqb c c' then Some s' else None
  | EmptyString => None
  end.

(** Days between 1970-01-01 and the civil date, proleptic Gregorian. *)
Definition daysFromCivil (y m d : Z) : Z :=
  let y' := if m <=? 2 then y - 1 else y in
  let era := y' / 400 in
  let yoe := y' - era * 400 in
  let mp := (m + 9) mod 12 in
  let doy := (153 * mp + 2) / 5 + d - 1 in
  let doe := yoe * 365 + yoe / 4 - yoe / 100 + doy in
  era * 146097 + doe - 719468.

(** The optional fraction [.sss], in milliseconds. *)
Definition fraction (s : string) : option (Z * string) :=
  match s with
  | String "." s' => digits 3 0 s'
  | _ => Some (0, s)
  end.

(** The zone, in minutes east of UTC; nothing may follow it. *)
Definition zone (s : string) : option Z :=
  match s with
  | String "Z" EmptyString => Some 0
  | String sign s' =>
      if Ascii.eqb sign "+" || Ascii.eqb sign "-" then
        '(h, s1) ← digits 2 0 s';
        s2 ← expect ":" s1;
        '(m, s3) ← digits 2 0 s2;
        match s3 with
        | EmptyString =>
            if (h <=? 23) && (m <=? 59) then
              Some (if Ascii.eqb sign "-" then - (60 * h + m) else 60 * h + m)
            else None
        | _ => None
        end
      else None
  | EmptyString => None
  end.

Definition parse (s : string) : option Z :=
  '(year, s) ← digits 4 0 s;
  s ← expect "-" s;
  '(month, s) ← digits 2 0 s;
  s ← expect "-" s;
  '(day, s) ← digits 2 0 s;
  s ← expect "T" s;
  '(hour, s) ← digits 2 0 s;
  s ← expect ":" s;
  '(minute, s) ← digits 2 0 s;
  s ← expect ":" s;
  '(second, s) ← digits 2 0 s;
  '(ms, s) ← fraction s;
  offset ← zone s;
  if (1 <=? month) && (month <=? 12) && (1 <=? day) && (day <=? 31)
     && (hour <=? 23) && (minute <=? 59) && (second <=? 59)
  then
    Some ((((daysFromCivil year month day * 24 + hour) * 60 + minute - offset) * 60
           + second) * 1000 + ms)
  else None.

#[export] Instance date : JsDate := {| getTime := parse |}.

End IsoDate.

(** ** Concrete resources and invocations *)

Module Examples.
Import Js Types GenericFunctions Trigger.

Definition resource (path : string) (mime : option string) (created modified : string)
  : IYandexDiskResource :=
  {| name := path; path := path; type := file; mime_type := mime;
     media_type := None; created := created; modified := modified;
     size := None; md5 := None; sha256 := None |}.

(** Created and never modified. *)
Definition untouched : IYandexDiskResource :=
  resource "disk:/n8n/new.txt" (Some "text/plain")
    "2025-12-14T10:00:00+00:00" "2025-12-14T10:00:00+00:00".

(** Modified half a second, exactly one second and one and a half seconds
    after its creation. *)
Definition halfSecondLater : IYandexDiskResource :=
  resource "disk:/n8n/half.txt" (Some "text/plain")
    "2025-12-14T10:00:00.000Z" "2025-12-14T10:00:00.500Z".

Definition oneSecondLater : IYandexDiskResource :=
  resource "disk:/n8n/one.txt" (Some "text/plain")
    "2025-12-14T10:00:00.000Z" "2025-12-14T10:00:01.000Z".

Definition oneAndHalfSecondsLater : IYandexDiskResource :=
  resource "disk:/n8n/later.txt" (Some "text/plain")
    "2025-12-14T10:00:00.000Z" "2025-12-14T10:00:01.500Z".

Definition imagePng : IYandexDiskResource :=
  resource "disk:/photo.png" (Some "image/png")
    "2025-12-14T10:00:00+00:00" "2025-12-14T10:00:00+00:00".

Definition noMimeType : IYandexDiskResource :=
  resource "disk:/folder" None
    "2025-12-14T10:00:00+00:00" "2025-12-14T10:00:00+00:00".

(** A resource of the trash, whose path has another vendor prefix. *)
Definition trashed : IYandexDiskResource :=
  resource "trash:/old.txt" (Some "text/plain")
    "2025-12-14T10:00:00+00:00" "2025-12-14T10:00:00+00:00".

Definition atPath (p : string) : IYandexDiskResource :=
  resource p None "2025-12-14T10:00:00+00:00" "2025-12-14T10:00:00+00:00".

(** A folder, a file in it and a file in a folder whose name extends it. *)
Definition n8nItems : list IYandexDiskResource :=
  [atPath "disk:/n8n"; atPath "disk:/n8n/anything"; atPath "disk:/n8n123/file.txt"].

(** The four resources above, by the delay of their modification. *)
Definition delayed : list IYandexDiskResource :=
  [untouched; halfSecondLater; oneSecondLater; oneAndHalfSecondsLater].

(** The two resources of the end-to-end scenario, with
    [T0 = 2025-12-14T10:00:00Z]. *)
Definition itemA : IYandexDiskResource :=
  resource "disk:/n8n/a.txt" (Some "text/plain")
    "2025-12-14T10:00:01+00:00" "2025-12-14T10:00:01+00:00".

Definition itemB : IYandexDiskResource :=
  resource "disk:/other/b.txt" (Some "image/jpeg")
    "2025-12-14T09:58:20+00:00" "2025-12-14T10:00:02+00:00".

(** A table of the kind [FILE_TYPE_TO_MEDIA_TYPE] is, for running [poll]. *)
Definition mediaTypes (fileType : string) : option string :=
  if String.eqb fileType "all" then None else Some fileType.

(** A remote API that answers every request with the given items. *)
Definition apiWith (l : list IYandexDiskResource) : Api :=
  {| recent := fun _ =>
       Ok {| status := 200; body := Some {| items := Some l |} |} |}.

(** A remote API whose requests fail. *)
Definition apiDown : Api :=
  {| recent := fun _ => Throw (PlainError "connect ETIMEDOUT") |}.

Definition host (mode : string) (api : Api) : IPollFunctions :=
  {| getMode := mode;
     param_event := Ok "created";
     param_location := Ok "specificPath";
     param_path := Ok "/n8n";
     param_options := Ok {| fileType := Some "all"; limit := Some 50 |};
     getCredentials := Ok {| oauthToken := Some "y0_token" |};
     moment_utc_format := "2025-12-14T10:00:05Z";
     sdk := fun _ => api |}.

(** The same host, except that the path parameter cannot be resolved:
    [getNodeParameter(PARAMS.PATH, 0)] throws inside the inner [try]. *)
Definition hostWithoutPath (api : Api) : IPollFunctions :=
  {| getMode := "trigger";
     param_event := Ok "created";
     param_location := Ok "specificPath";
     param_path := Throw (NodeOperationError "Could not get parameter");
     param_options := Ok {| fileType := Some "all"; limit := Some 50 |};
     getCredentials := Ok {| oauthToken := Some "y0_token" |};
     moment_utc_format := "2025-12-14T10:00:05Z";
     sdk := fun _ => api |}.

(** The parameters that [host] resolves to. *)
Definition hostParameters : Parameters :=
  {| event := "created"; location := "specificPath";
     options := {| fileType := Some "all"; limit := Some 50 |} |}.

(** The static data with the checkpoint at [T0]. *)
Definition atT0 : gmap string string :=
  {[ "lastTimeChecked" := "2025-12-14T10:00:00Z" ]}.

End Examples.

(** ** GenericFunctions.ts: asynchronous operations

    A long operation of the remote API (delete, copy, move) answers with a
    link to [/operations/<id>]; [waitForOperation] polls that operation.
    The clock and the remote API are the environment: the readings of
    [Date.now()] at the loop test and the answers of [api.operation] come
    as a list of observations, and the loop is a recursion on that list. *)

From Stdlib Require Import DecimalString.

Module Operations.
Import Js.

(** [s.includes(needle)] *)
Fixpoint includes (needle s : string) : bool :=
  startsWith needle s
  || match s with
     | EmptyString => false
     | String _ s' => includes needle s'
     end.

(** What follows the prefix [p] in [s], when [s] starts with [p]. *)
Fixpoint afterPrefix (p s : string) : option string :=
  match p with
  | EmptyString => Some s
  | String a p' =>
      match s with
      | EmptyString => None
      | String b s' => if Ascii.eqb a b then afterPrefix p' s' else None
      end
  end.

(** What [[^?]+] takes: the code units up to the first question mark. *)
Fixpoint untilQuestionMark (s : string) : string :=
  match s with
  | EmptyString => EmptyString
  | String c s' => if Ascii.eqb c "?" then EmptyString else String c (untilQuestionMark s')
  end.

(** The group of [/\/operations\/([^?]+)/] at the start of [s]: the match
    needs at least one code unit after the marker. *)
Definition operationsGroupHere (s : string) : option string :=
  match afterPrefix "/operations/" s with
  | Some rest =>
      match untilQuestionMark rest with
      | EmptyString => None
      | id => Some id
      end
  | None => None
  end.

(** [s.match(/\/operations\/([^?]+)/)]: the group of the leftmost match. *)
Fixpoint matchOperations (s : string) : option string :=
  match operationsGroupHere s with
  | Some id => Some id
  | None =>
      match s with
      | EmptyString => None
      | String _ s' => matchOperations s'
      end
  end.

(** The body of an API answer that is a link: [href] and [method]. *)
Record Link : Type := { href : option string; method : option string }.

(** [isOperationLink(result)], as the condition of an [if]. *)
Definition isOperationLink (result : option Link) : bool :=
  match result with
  | Some r =>
      match href r with
      | Some h => truthy h && includes "/operations/" h
      | None => false
      end
  | None => false
  end.

(** [getOperationId(result)] *)
Definition getOperationId (result : option Link) : string :=
  match result with
  | Some r =>
      match href r with
      | Some h =>
          if truthy h then
            match matchOperations h with
            | Some id => id
            | None => ""
            end
          else ""
      | None => ""
      end
  | None => ""
  end.

(** What a [catch] may receive: a rejection of the remote API, which
    carries an HTTP [status], or an error object of the node. *)
Inductive Caught : Type :=
  | HttpFailure (status : Z) (message : string)
  | Thrown (e : Error).

(** [error.status === code] *)
Definition hasStatus (code : Z) (c : Caught) : bool :=
  match c with
  | HttpFailure status _ => status =? code
  | Thrown _ => false
  end.

(** [error.message] *)
Definition messageOf (c : Caught) : string :=
  match c with
  | HttpFailure _ message => message
  | Thrown (PlainError message) => message
  | Thrown (TypeError message) => message
  | Thrown (NodeOperationError message) => message
  | Thrown (NodeApiError message _) => message
  end.

(** The outcome of an awaited call. *)
Inductive attempt (A : Type) : Type :=
  | Returned (value : A)
  | Raised (error : Caught).
Arguments Returned {A} value.
Arguments Raised {A} error.

(** The body of [api.operation]: its [status] and its JSON text. *)
Record OperationStatus : Type := { op_status : string; JSON_stringify : string }.

(** One pass of the loop as the environment shows it: the reading of
    [Date.now()] at the test, and what [api.operation] answers then. *)
Record Observation : Type := {
  Date_now : Z;
  api_operation : attempt OperationStatus
}.

(** [`${n}`] for an integer. *)
Definition showNumber (n : Z) : string := NilZero.string_of_int (Z.to_int n).

(** [waitForOperation(api, operationId, timeout, interval)] from the
    reading [startTime] on; [None] when the observations end before the
    loop does.  The interval only spaces the observations. *)
Fixpoint waitForOperation (startTime timeout : Z) (observations : list Observation)
  : option (attempt string) :=
  match observations with
  | [] => None
  | o :: rest =>
      if Date_now o - startTime <? timeout then
        match api_operation o with
        | Raised error => Some (Raised error)
        | Returned operation =>
            if String.eqb (op_status operation) "success" then Some (Returned "success")
            else if String.eqb (op_status operation) "failed" then
              Some (Raised (Thrown (PlainError
                      ("Operation failed: " ++ JSON_stringify operation))))
            else waitForOperation startTime timeout rest
        end
      else
        Some (Raised (Thrown (PlainError
                ("Operation timeout after " ++ showNumber timeout ++ "ms"))))
  end.

(** The default [timeout] and [interval], in milliseconds. *)
Definition defaultTimeout : Z := 30000.
Definition defaultInterval : Z := 1000.

(** The observations are spaced by the interval: the test number [k]
    reads the clock at [startTime + k * interval] or later. *)
Fixpoint paced (startTime interval : Z) (observations : list Observation) : Prop :=
  match observations with
  | [] => True
  | o :: rest => startTime <= Date_now o /\ paced (startTime + interval) interval rest
  end.

End Operations.

(** ** resources/file.operations.ts, resources/folder.operations.ts and
    Yandex360Disk.node.ts *)

Module Node.
Import Js Operations.

(** A JSON value, as far as the outputs of the node go. *)
#[warnings="-register-all"] Inductive Json : Type :=
  | JBool (b : bool)
  | JString (s : string)
  | JObject (fields : list (string * Json)).

(** [INodeExecutionData] of the regular node: [json] and [pairedItem.item]. *)
Record ExecutionData : Type := { json : Json; pairedItem : nat }.

(** [OperationResult]: one record or an array of records. *)
Inductive OperationResult : Type :=
  | One (d : ExecutionData)
  | Many (l : list ExecutionData).

(** The remote API as the delete operations use it: [api.remove], the
    reading of the clock when a wait starts, and the observations of the
    operation with a given id. *)
Record DiskApi : Type := {
  api_remove : string -> bool -> attempt (option Link);
  startTime : Z;
  observe : string -> list Observation
}.

(** The [catch] of a delete: 404 is a missing resource, anything else a
    failure of the API. *)
Definition deleteCatch (Noun noun path : string) (error : Caught) : Caught :=
  if hasStatus 404 error then
    Thrown (NodeOperationError (Noun ++ " not found at path: " ++ path))
  else
    Thrown (NodeApiError ("Failed to delete " ++ noun ++ " at " ++ path)
              (Some "Check your OAuth credentials and path")).

Definition deleteCompleted (path : string) (permanently : bool) (i : nat) : ExecutionData :=
  {| json := JObject [("success", JBool true); ("status", JString "completed");
                      ("path", JString path); ("permanently", JBool permanently)];
     pairedItem := i |}.

Definition deletePending (operationId path : string) (permanently : bool) (i : nat)
  : ExecutionData :=
  {| json := JObject [("success", JBool true); ("status", JString "pending");
                      ("operationId", JString operationId);
                      ("path", JString path); ("permanently", JBool permanently);
                      ("message",
                       JString "Operation started, check status using operation ID")];
     pairedItem := i |}.

(** The body shared by [executeFileDelete] and [executeFolderDelete], which
    differ in the words of their errors only.  [None] when the observations
    of the awaited operation end before the wait does. *)
Definition executeDelete (Noun noun : string) (api : DiskApi) (path : string)
    (permanently waitForCompletion : bool) (i : nat) : option (attempt ExecutionData) :=
  match api_remove api path permanently with
  | Raised error => Some (Raised (deleteCatch Noun noun path error))
  | Returned result =>
      if isOperationLink result then
        if waitForCompletion then
          let operationId := getOperationId result in
          match waitForOperation (startTime api) defaultTimeout (observe api operationId) with
          | None => None
          | Some (Returned _) => Some (Returned (deleteCompleted path permanently i))
          | Some (Raised error) => Some (Raised (deleteCatch Noun noun path error))
          end
        else Some (Returned (deletePending (getOperationId result) path permanently i))
      else Some (Returned (deleteCompleted path permanently i))
  end.

Definition executeFileDelete := executeDelete "File" "file".
Definition executeFolderDelete := executeDelete "Folder" "folder".

(** The functions that [executeFileOperation] routes to, for one client. *)
Record FileHandlers : Type := {
  executeFileUpload : nat -> attempt OperationResult;
  executeFileDownload : nat -> attempt OperationResult;
  executeFileDeleteAt : nat -> attempt OperationResult;
  executeFileCopy : nat -> attempt OperationResult;
  executeFileMove : nat -> attempt OperationResult;
  executeFileGetInfo : nat -> attempt OperationResult;
  executeFilePublish : nat -> attempt OperationResult;
  executeFileUnpublish : nat -> attempt OperationResult
}.

(** The functions that [executeFolderOperation] routes to. *)
Record FolderHandlers : Type := {
  executeFolderCreate : nat -> attempt OperationResult;
  executeFolderList : nat -> attempt OperationResult;
  executeFolderDeleteAt : nat -> attempt OperationResult;
  executeFolderGetInfo : nat -> attempt OperationResult;
  executeFolderPublish : nat -> attempt OperationResult;
  executeFolderUnpublish : nat -> attempt OperationResult
}.

(** [executeFileOperation(context, operation)] *)
Definition executeFileOperation (h : FileHandlers) (operation : string) (itemIndex : nat)
  : attempt OperationResult :=
  if String.eqb operation "upload" then executeFileUpload h itemIndex
  else if String.eqb operation "download" then executeFileDownload h itemIndex
  else if String.eqb operation "delete" then executeFileDeleteAt h itemIndex
  else if String.eqb operation "copy" then executeFileCopy h itemIndex
  else if String.eqb operation "move" then executeFileMove h itemIndex
  else if String.eqb operation "getInfo" then executeFileGetInfo h itemIndex
  else if String.eqb operation "publish" then executeFilePublish h itemIndex
  else if String.eqb operation "unpublish" then executeFileUnpublish h itemIndex
  else Raised (Thrown (NodeOperationError ("Unknown file operation: " ++ operation))).

(** [executeFolderOperation(context, operation)] *)
Definition executeFolderOperation (h : FolderHandlers) (operation : string)
    (itemIndex : nat) : attempt OperationResult :=
  if String.eqb operation "create" then executeFolderCreate h itemIndex
  else if String.eqb operation "list" then executeFolderList h itemIndex
  else if String.eqb operation "delete" then executeFolderDeleteAt h itemIndex
  else if String.eqb operation "getInfo" then executeFolderGetInfo h itemIndex
  else if String.eqb operation "publish" then executeFolderPublish h itemIndex
  else if String.eqb operation "unpublish" then executeFolderUnpublish h itemIndex
  else Raised (Thrown (NodeOperationError ("Unknown folder operation: " ++ operation))).

(** What the host hands to [execute]: the number of input items, the two
    parameters read at index 0 ([getNodeParameter] may throw), the
    credentials, [continueOnFail()], and the operations of the client that
    the SDK builds for a token. *)
Record IExecuteFunctions : Type := {
  inputLength : nat;
  param_resource : result string;
  param_operation : result string;
  getCredentials : result Trigger.Credentials;
  continueOnFail : bool;
  fileHandlers : string -> FileHandlers;
  folderHandlers : string -> FolderHandlers
}.

(** The token that [initializeYandexDiskApi] gives to the SDK. *)
Definition tokenOf (credentials : Trigger.Credentials) : result string :=
  match Trigger.oauthToken credentials with
  | Some token =>
      if truthy token then Ok token
      else Throw (PlainError "OAuth token not found in credentials")
  | None => Throw (PlainError "OAuth token not found in credentials")
  end.

(** The routing inside the loop of [execute]. *)
Definition route (this : IExecuteFunctions) (resource operation token : string) (i : nat)
  : attempt OperationResult :=
  if String.eqb resource "file" then
    executeFileOperation (fileHandlers this token) operation i
  else if String.eqb resource "folder" then
    executeFolderOperation (folderHandlers this token) operation i
  else Raised (Thrown (NodeOperationError ("Unknown resource: " ++ resource))).

(** What [returnData.push] adds for a result. *)
Definition pushed (r : OperationResult) : list ExecutionData :=
  match r with
  | One d => [d]
  | Many l => l
  end.

(** The record that stands for a failed item under [continueOnFail]. *)
Definition errorEntry (error : Caught) (i : nat) : ExecutionData :=
  {| json := JObject [("error", JString (messageOf error)); ("success", JBool false)];
     pairedItem := i |}.

(** The loop of [execute] over the indices that are left. *)
Fixpoint processItems (continueOnFail : bool) (handle : nat -> attempt OperationResult)
    (indices : list nat) (returnData : list ExecutionData)
  : attempt (list ExecutionData) :=
  match indices with
  | [] => Returned returnData
  | i :: rest =>
      match handle i with
      | Returned r =>
          processItems continueOnFail handle rest (returnData ++ pushed r)%list
      | Raised error =>
          if continueOnFail then
            processItems continueOnFail handle rest (returnData ++ [errorEntry error i])%list
          else Raised error
      end
  end.

(** The outermost [catch] of [execute]. *)
Definition executeCatch (error : Caught) : Caught :=
  match error with
  | Thrown e =>
      if isNodeApiError e || isNodeOperationError e then Thrown e
      else Thrown (NodeApiError "An error occurred in Yandex 360 Disk node" None)
  | HttpFailure _ _ =>
      Thrown (NodeApiError "An error occurred in Yandex 360 Disk node" None)
  end.

(** The [try] of [execute], for the two parameters read before it. *)
Definition executeBody (this : IExecuteFunctions) (resource operation : string)
  : attempt (list (list ExecutionData)) :=
  match getCredentials this with
  | Throw e => Raised (Thrown e)
  | Ok credentials =>
      match tokenOf credentials with
      | Throw e => Raised (Thrown e)
      | Ok token =>
          match processItems (continueOnFail this) (route this resource operation token)
                  (seq 0 (inputLength this)) [] with
          | Returned returnData => Returned [returnData]
          | Raised error => Raised error
          end
      end
  end.

(** [execute] *)
Definition execute (this : IExecuteFunctions) : attempt (list (list ExecutionData)) :=
  match param_resource this with
  | Throw e => Raised (Thrown e)
  | Ok resource =>
      match param_operation this with
      | Throw e => Raised (Thrown e)
      | Ok operation =>
          match executeBody this resource operation with
          | Returned out => Returned out
          | Raised error => Raised (executeCatch error)
          end
      end
  end.

End Node.

(** ** Series of poll cycles *)

Module Runs.
Import Trigger.

(** The clock does not run backwards over the cycles: every reading is a
    date, not before [t] and not before the reading of the cycle that
    precedes it. *)
Fixpoint clocksAscend `{JsDate} (t : Z) (cycles : list IPollFunctions) : Prop :=
  match cycles with
  | [] => True
  | this :: rest =>
      exists now, getTime (moment_utc_format this) = Some now
                  /\ t <= now /\ clocksAscend now rest
  end.

End Runs.

(** ** More concrete data *)

Module MoreExamples.
Import Js Types Operations Node.

(** An operation that is in progress twice and then succeeds, read every
    second from the start at 0. *)
Definition slowSuccess : list Observation :=
  [ {| Date_now := 0;
       api_operation := Returned {| op_status := "in-progress"; JSON_stringify := "{}" |} |};
    {| Date_now := 1000;
       api_operation := Returned {| op_status := "in-progress"; JSON_stringify := "{}" |} |};
    {| Date_now := 2000;
       api_operation := Returned {| op_status := "success"; JSON_stringify := "{}" |} |} ].

(** An operation that never leaves [in-progress], read [n] times from
    [time] on, every [interval] milliseconds. *)
Fixpoint stuck (n : nat) (time interval : Z) : list Observation :=
  match n with
  | O => []
  | S n' =>
      {| Date_now := time;
         api_operation := Returned {| op_status := "in-progress"; JSON_stringify := "{}" |} |}
      :: stuck n' (time + interval) interval
  end.

Definition operationLink : option Link :=
  Some {| href := Some "https://cloud-api.yandex.net/v1/disk/operations/abc123?fields=status";
          method := Some "GET" |}.

(** A client whose [remove] starts the operation [abc123], which then
    goes as [slowSuccess]. *)
Definition asyncApi : DiskApi :=
  {| api_remove := fun _ _ => Returned operationLink;
     startTime := 0;
     observe := fun id => if String.eqb id "abc123" then slowSuccess else [] |}.

(** A client that answers every [remove] with 404. *)
Definition missingApi : DiskApi :=
  {| api_remove := fun _ _ => Raised (HttpFailure 404 "DiskNotFoundError");
     startTime := 0;
     observe := fun _ => [] |}.

(** Handlers of which only the delete of item 1 fails. *)
Definition failAt1 (i : nat) : attempt OperationResult :=
  if Nat.eqb i 1 then Raised (HttpFailure 423 "Resource is locked")
  else Returned (One (deleteCompleted "disk:/a" false i)).

(** Handlers that all go as [failAt1]. *)
Definition fileHandlersAt1 : FileHandlers :=
  {| executeFileUpload := failAt1; executeFileDownload := failAt1;
     executeFileDeleteAt := failAt1; executeFileCopy := failAt1;
     executeFileMove := failAt1; executeFileGetInfo := failAt1;
     executeFilePublish := failAt1; executeFileUnpublish := failAt1 |}.

Definition folderHandlersAt1 : FolderHandlers :=
  {| executeFolderCreate := failAt1; executeFolderList := failAt1;
     executeFolderDeleteAt := failAt1; executeFolderGetInfo := failAt1;
     executeFolderPublish := failAt1; executeFolderUnpublish := failAt1 |}.

(** An execution over [n] input items. *)
Definition executeHost (continue : bool) (resource operation : string)
    (token : option string) (n : nat) : IExecuteFunctions :=
  {| inputLength := n;
     param_resource := Ok resource;
     param_operation := Ok operation;
     getCredentials := Ok {| Trigger.oauthToken := token |};
     continueOnFail := continue;
     fileHandlers := fun _ => fileHandlersAt1;
     folderHandlers := fun _ => folderHandlersAt1 |}.

(** An invocation of the trigger whose credentials hold no token. *)
Definition hostWithoutToken (mode : string) : Trigger.IPollFunctions :=
  {| Trigger.getMode := mode;
     Trigger.param_event := Ok "updated";
     Trigger.param_location := Ok "root";
     Trigger.param_path := Ok "/";
     Trigger.param_options := Ok {| fileType := None; limit := None |};
     Trigger.getCredentials := Ok {| Trigger.oauthToken := None |};
     Trigger.moment_utc_format := "2025-12-14T10:00:05Z";
     Trigger.sdk := fun _ => Examples.apiDown |}.

(** Static data with a key of another owner beside the checkpoint. *)
Definition atT0WithNote : gmap string string :=
  <["note" := "kept"]> Examples.atT0.

End MoreExamples.
(** * Properties *)

(** [simpl] unfolds the concatenation of strings on a constructor. *)
#[local] Arguments String.append !s1 s2 /.

(** ** Strings *)

Section StringFacts.
Import Js.

Lemma startsWith_spec (p s : string) :
  startsWith p s = true <-> exists rest, s = p ++ rest.
Proof.
  revert s. induction p as [|a p IH]; intros s; simpl.
  - split; [intros _; exists s; reflexivity | reflexivity].
  - destruct s as [|b s]; simpl.
    + split; [discriminate | intros [rest Hrest]; discriminate].
    + destruct (Ascii.eqb_spec a b) as [->|Hab].
      * rewrite IH. split; intros [rest Hrest]; exists rest.
        -- subst s. reflexivity.
        -- simpl in Hrest. congruence.
      * split; [discriminate | intros [rest Hrest]; simpl in Hrest; congruence].
Qed.

Lemma startsWith_app (p q s : string) :
  startsWith (p ++ q) (p ++ s) = startsWith q s.
Proof.
  induction p as [|a p IH]; simpl; [reflexivity|].
  rewrite Ascii.eqb_refl. exact IH.
Qed.

Lemma append_assoc (a b c : string) : (a ++ b) ++ c = a ++ (b ++ c).
Proof. induction a as [|x a IH]; simpl; congruence. Qed.

Lemma append_nil_r (s : string) : s ++ "" = s.
Proof. induction s as [|c s IH]; simpl; congruence. Qed.

Lemma append_inv_head (p a b : string) : p ++ a = p ++ b -> a = b.
Proof. induction p as [|x p IH]; simpl; intros E; [exact E | injection E; auto]. Qed.

Lemma append_nil_r_inv (p a : string) : p = p ++ a -> a = "".
Proof.
  intros E. apply (append_inv_head p). rewrite <- E.
  clear. induction p as [|x p IH]; simpl; congruence.
Qed.

Lemma orElse_empty_Some (v : option string) (m : string) :
  orElse v "" = m -> m <> "" -> v = Some m.
Proof.
  unfold orElse, truthy. destruct v as [s|]; [|congruence].
  destruct (String.eqb_spec s ""); simpl; congruence.
Qed.

Lemma orElse_Some (m d : string) : m <> "" -> orElse (Some m) d = m.
Proof.
  intros Hm. unfold orElse, truthy.
  destruct (String.eqb_spec m ""); simpl; congruence.
Qed.

End StringFacts.

(** ** The media-type filter *)

Section FileType.
Import Js Types GenericFunctions.

(** The categories with a list of their own are the five of the source,
    and none of their prefixes is empty. *)
Lemma typeMap_Some (fileType : string) (patterns : list string) :
  typeMap fileType = Some patterns ->
  In fileType ["document"; "image"; "video"; "audio"; "archive"]
  /\ Forall (fun p => p <> "") patterns.
Proof.
  unfold typeMap.
  repeat match goal with
         | |- context [String.eqb fileType ?k] =>
             destruct (String.eqb_spec fileType k) as [->|]
         end; intros E; inversion E; subst; clear E;
    (split; [simpl; tauto | repeat constructor; discriminate]).
Qed.

(** An item matches a list of non-empty prefixes exactly when it has a
    MIME type that extends one of them. *)
Lemma matchesPatterns_spec (patterns : list string) (item : IYandexDiskResource) :
  Forall (fun p => p <> "") patterns ->
  matchesPatterns patterns item = true <->
  exists p m rest, In p patterns /\ mime_type item = Some m /\ m = p ++ rest.
Proof.
  intros Hne. unfold matchesPatterns. rewrite existsb_exists. split.
  - intros (p & Hp & Hs). apply startsWith_spec in Hs as [rest Hrest].
    exists p, (p ++ rest), rest. repeat split; trivial.
    apply orElse_empty_Some; [exact Hrest|].
    rewrite Forall_forall in Hne. specialize (Hne p Hp).
    destruct p; [congruence | discriminate].
  - intros (p & m & rest & Hp & Hm & ->). exists p. split; [exact Hp|].
    rewrite Hm. rewrite orElse_Some.
    + apply startsWith_spec. exists rest. reflexivity.
    + rewrite Forall_forall in Hne. specialize (Hne p Hp).
      destruct p; [congruence | discriminate].
Qed.

Lemma filter_nothing {A : Type} (l : list A) : List.filter (fun _ => false) l = [].
Proof. induction l; simpl; trivial. Qed.

(** C4, as the claim states it, fails: a category that [typeMap] does not
    have resolves to the empty list of prefixes, and the filter then drops
    every item instead of passing it through. *)
Lemma filterByFileType_unrecognized_drops :
  filterByFileType [Examples.imagePng] "spreadsheet" = Ok []
  /\ ~ (forall items fileType,
          typeMap fileType = None -> filterByFileType items fileType = Ok items).
Proof.
  split; [reflexivity|].
  intros Hall. specialize (Hall [Examples.imagePng] "spreadsheet" eq_refl).
  discriminate Hall.
Qed.

(** C4 (amended): ['all'] passes every item through; a category of
    [typeMap] keeps, in order, exactly the items whose MIME type starts with
    one of its prefixes; a category that is neither ['all'] nor in
    [typeMap] (nor a name of [Object.prototype]) keeps no item; and an item
    without a MIME type is kept under ['all'] only. *)
Theorem filterByFileType_categories (items : list IYandexDiskResource) (fileType : string) :
  (fileType = "all" -> filterByFileType items fileType = Ok items)
  /\ (forall patterns, typeMap fileType = Some patterns ->
        In fileType ["document"; "image"; "video"; "audio"; "archive"]
        /\ filterByFileType items fileType = Ok (List.filter (matchesPatterns patterns) items)
        /\ forall item, In item (List.filter (matchesPatterns patterns) items) <->
             In item items
             /\ exists p m rest, In p patterns /\ mime_type item = Some m /\ m = p ++ rest)
  /\ (fileType <> "all" -> typeMap fileType = None -> inObjectPrototype fileType = false ->
        filterByFileType items fileType = Ok [])
  /\ (forall kept item, fileType <> "all" -> filterByFileType items fileType = Ok kept ->
        mime_type item = None -> ~ In item kept).
Proof.
  split; [intros ->; reflexivity|].
  split; [intros patterns Hmap | split].
  - pose proof (typeMap_Some _ _ Hmap) as [Hfive Hne].
    split; [exact Hfive|]. split.
    + unfold filterByFileType. rewrite Hmap.
      destruct (String.eqb_spec fileType "all") as [->|]; [discriminate Hmap | reflexivity].
    + intros item. rewrite filter_In, (matchesPatterns_spec _ _ Hne). reflexivity.
  - intros Hall Hnone Hproto. unfold filterByFileType.
    rewrite Hnone, Hproto.
    destruct (String.eqb_spec fileType "all"); [contradiction|].
    unfold matchesPatterns. simpl. rewrite filter_nothing. reflexivity.
  - intros kept item Hall Hkept Hmime Hin. unfold filterByFileType in Hkept.
    destruct (String.eqb_spec fileType "all"); [contradiction|].
    destruct (typeMap fileType) as [patterns|] eqn:Hmap.
    + inversion Hkept; subst. apply filter_In in Hin as [_ Hm].
      pose proof (typeMap_Some _ _ Hmap) as [_ Hne].
      apply (matchesPatterns_spec _ _ Hne) in Hm as (p & m & rest & _ & Hsome & _).
      congruence.
    + destruct (inObjectPrototype fileType).
      * destruct items; inversion Hkept; subst. destruct Hin.
      * inversion Hkept; subst. apply filter_In in Hin as [_ Hm]. discriminate Hm.
Qed.

(** A category that names a property of [Object.prototype] is not a
    case of the above: its lookup is not a list, and the filter throws at
    the first item. *)
Lemma filterByFileType_inherited_name (item : IYandexDiskResource)
    (items : list IYandexDiskResource) (fileType : string) :
  inObjectPrototype fileType = true ->
  filterByFileType [] fileType = Ok []
  /\ filterByFileType (item :: items) fileType
     = Throw (TypeError "patterns.some is not a function").
Proof.
  intros Hp. unfold filterByFileType.
  assert (Hall : String.eqb fileType "all" = false).
  { destruct (String.eqb_spec fileType "all") as [->|]; [discriminate Hp | reflexivity]. }
  assert (Hmap : typeMap fileType = None).
  { destruct (typeMap fileType) as [patterns|] eqn:E; [|reflexivity].
    apply typeMap_Some in E as [Hfive _]. simpl in Hfive.
    destruct Hfive as [<-|[<-|[<-|[<-|[<-|[]]]]]]; discriminate Hp. }
  rewrite Hall, Hmap, Hp. split; reflexivity.
Qed.

(** The amended C4 at the PNG image of the specification: kept under
    ['image'], dropped under ['document']; without a MIME type, kept under
    ['all'] only. *)
Lemma filterByFileType_categories_witness :
  filterByFileType [Examples.imagePng; Examples.noMimeType] "all"
    = Ok [Examples.imagePng; Examples.noMimeType]
  /\ filterByFileType [Examples.imagePng; Examples.noMimeType] "image" = Ok [Examples.imagePng]
  /\ filterByFileType [Examples.imagePng; Examples.noMimeType] "document" = Ok []
  /\ filterByFileType [Examples.imagePng; Examples.noMimeType] "spreadsheet" = Ok [].
Proof.
  pose proof (filterByFileType_categories [Examples.imagePng; Examples.noMimeType] "all")
    as (Hall & _).
  pose proof (filterByFileType_categories [Examples.imagePng; Examples.noMimeType] "image")
    as (_ & Himage & _).
  pose proof (filterByFileType_categories [Examples.imagePng; Examples.noMimeType] "document")
    as (_ & Hdoc & _).
  pose proof (filterByFileType_categories [Examples.imagePng; Examples.noMimeType] "spreadsheet")
    as (_ & _ & Hother & _).
  split; [exact (Hall eq_refl)|].
  split; [exact (proj1 (proj2 (Himage _ eq_refl)))|].
  split; [exact (proj1 (proj2 (Hdoc _ eq_refl)))|].
  apply Hother; [discriminate | reflexivity | reflexivity].
Defined.

End FileType.

(** ** The event-type classification and the modification-time window *)

Section Events.
Import Js Types GenericFunctions.
Context `{JsDate}.

Lemma isCreated_spec (item : IYandexDiskResource) :
  isCreated item = true <->
  exists c m, getTime (created item) = Some c /\ getTime (modified item) = Some m
              /\ Z.abs (c - m) < 1000.
Proof.
  unfold isCreated. split.
  - destruct (getTime (created item)) as [c|], (getTime (modified item)) as [m|];
      try discriminate.
    intros Hlt. exists c, m. rewrite Z.ltb_lt in Hlt. auto.
  - intros (c & m & -> & -> & Hlt). apply Z.ltb_lt. exact Hlt.
Qed.

Lemma isUpdated_spec (item : IYandexDiskResource) :
  isUpdated item = true <->
  exists c m, getTime (created item) = Some c /\ getTime (modified item) = Some m
              /\ m - c > 1000.
Proof.
  unfold isUpdated. split.
  - destruct (getTime (created item)) as [c|], (getTime (modified item)) as [m|];
      try discriminate.
    intros Hlt. exists c, m. rewrite Z.ltb_lt in Hlt. repeat split; trivial. lia.
  - intros (c & m & -> & -> & Hlt). apply Z.ltb_lt. lia.
Qed.

Lemma filterByEventType_other (items : list IYandexDiskResource) (event : string) :
  event <> "created" -> event <> "updated" -> filterByEventType items event = items.
Proof.
  intros Hc Hu. unfold filterByEventType.
  destruct (String.eqb_spec event "all"); [reflexivity|].
  destruct (String.eqb_spec event "created"); [contradiction|].
  destruct (String.eqb_spec event "updated"); [contradiction|].
  reflexivity.
Qed.

(** C5: under ['created'] an item is kept exactly when
    [|createdAt - modifiedAt| < 1000 ms], under ['updated'] exactly when
    [modifiedAt - createdAt > 1000 ms], and every other event passes the
    list through unchanged; so equal timestamps and a modification 500 ms
    after the creation are ['created'], one 1500 ms after is ['updated']. *)
Theorem filterByEventType_classification (items : list IYandexDiskResource) :
  (forall item, In item (filterByEventType items "created") <->
     In item items
     /\ exists c m, getTime (created item) = Some c /\ getTime (modified item) = Some m
                    /\ Z.abs (c - m) < 1000)
  /\ (forall item, In item (filterByEventType items "updated") <->
        In item items
        /\ exists c m, getTime (created item) = Some c /\ getTime (modified item) = Some m
                       /\ m - c > 1000)
  /\ (forall event, event <> "created" -> event <> "updated" ->
        filterByEventType items event = items)
  /\ (forall item c, In item items ->
        getTime (created item) = Some c ->
        (getTime (modified item) = Some c -> In item (filterByEventType items "created"))
        /\ (getTime (modified item) = Some (c + 500) ->
              In item (filterByEventType items "created")
              /\ ~ In item (filterByEventType items "updated"))
        /\ (getTime (modified item) = Some (c + 1500) ->
              In item (filterByEventType items "updated")
              /\ ~ In item (filterByEventType items "created"))).
Proof.
  assert (Hc : forall item, In item (filterByEventType items "created") <->
                 In item items /\ isCreated item = true)
    by (intros item; apply filter_In).
  assert (Hu : forall item, In item (filterByEventType items "updated") <->
                 In item items /\ isUpdated item = true)
    by (intros item; apply filter_In).
  split; [intros item; rewrite Hc, isCreated_spec; reflexivity|].
  split; [intros item; rewrite Hu, isUpdated_spec; reflexivity|].
  split; [apply filterByEventType_other|].
  intros item c Hin Hcr. rewrite !Hc, !Hu. unfold isCreated, isUpdated. rewrite Hcr.
  split; [|split]; intros ->.
  - split; [exact Hin|]. apply Z.ltb_lt. lia.
  - split.
    + split; [exact Hin|]. apply Z.ltb_lt. lia.
    + intros [_ Hlt]. apply Z.ltb_lt in Hlt. lia.
  - split.
    + split; [exact Hin|]. apply Z.ltb_lt. lia.
    + intros [_ Hlt]. apply Z.ltb_lt in Hlt. lia.
Qed.

(** C6 (amended): an item modified exactly 1000 ms after its creation is
    dropped under ['updated'], and under ['created'] as well; only another
    event value lets it through. *)
Theorem filterByEventType_exactly_one_second
    (items : list IYandexDiskResource) (item : IYandexDiskResource) (c : Z) :
  getTime (created item) = Some c ->
  getTime (modified item) = Some (c + 1000) ->
  ~ In item (filterByEventType items "updated")
  /\ ~ In item (filterByEventType items "created")
  /\ (In item items -> In item (filterByEventType items "all")).
Proof.
  intros Hcr Hmo. split; [|split].
  - intros Hin. apply filter_In in Hin as [_ Hup].
    unfold isUpdated in Hup. rewrite Hcr, Hmo in Hup. apply Z.ltb_lt in Hup. lia.
  - intros Hin. apply filter_In in Hin as [_ Hup].
    unfold isCreated in Hup. rewrite Hcr, Hmo in Hup. apply Z.ltb_lt in Hup. lia.
  - intros Hin. exact Hin.
Qed.

(** C10: ['created'] and ['updated'] exclude each other: an item kept
    under one of them is not kept under the other, whatever the lists. *)
Theorem created_and_updated_exclusive
    (items items' : list IYandexDiskResource) (item : IYandexDiskResource) :
  (In item (filterByEventType items "created") ->
   ~ In item (filterByEventType items' "updated"))
  /\ (In item (filterByEventType items' "updated") ->
      ~ In item (filterByEventType items "created"))
  /\ isCreated item && isUpdated item = false.
Proof.
  assert (Hex : isCreated item = true -> isUpdated item = true -> False).
  { intros Hc Hu.
    apply isCreated_spec in Hc as (c & m & Hc1 & Hm1 & Habs).
    apply isUpdated_spec in Hu as (c' & m' & Hc2 & Hm2 & Hgt).
    rewrite Hc1 in Hc2. rewrite Hm1 in Hm2.
    injection Hc2 as <-. injection Hm2 as <-. lia. }
  split; [|split].
  - intros Hc Hu. apply filter_In in Hc as [_ Hc]. apply filter_In in Hu as [_ Hu]. auto.
  - intros Hu Hc. apply filter_In in Hc as [_ Hc]. apply filter_In in Hu as [_ Hu]. auto.
  - destruct (isCreated item) eqn:Hc, (isUpdated item) eqn:Hu; trivial.
    exfalso. auto.
Qed.

(** C7: the window keeps an item exactly when
    [windowStart < modifiedAt <= windowEnd]; a modification at
    [windowStart] is out, one at [windowEnd] is in. *)
Theorem filterByModifiedTime_window
    (items : list IYandexDiskResource) (startDate endDate : string) :
  (forall item, In item (filterByModifiedTime items startDate endDate) <->
     In item items
     /\ exists windowStart modifiedAt windowEnd,
          getTime startDate = Some windowStart
          /\ getTime (modified item) = Some modifiedAt
          /\ getTime endDate = Some windowEnd
          /\ windowStart < modifiedAt <= windowEnd)
  /\ (forall item, getTime (modified item) = getTime startDate ->
        ~ In item (filterByModifiedTime items startDate endDate))
  /\ (forall item windowStart windowEnd, In item items ->
        getTime startDate = Some windowStart -> getTime endDate = Some windowEnd ->
        windowStart < windowEnd ->
        getTime (modified item) = Some windowEnd ->
        In item (filterByModifiedTime items startDate endDate)).
Proof.
  assert (Hw : forall item, In item (filterByModifiedTime items startDate endDate) <->
            In item items /\ inWindow (getTime startDate) (getTime endDate) item = true)
    by (intros item; apply filter_In).
  split; [|split].
  - intros item. rewrite Hw. unfold inWindow. split.
    + intros [Hin Hb]. split; [exact Hin|].
      destruct (getTime (modified item)) as [m|]; [|discriminate].
      destruct (getTime startDate) as [s|]; [|discriminate].
      destruct (getTime endDate) as [e|]; [|discriminate].
      apply andb_true_iff in Hb as [Hs He].
      apply Z.ltb_lt in Hs. apply Z.leb_le in He.
      exists s, m, e. auto.
    + intros [Hin (s & m & e & -> & -> & -> & Hs & He)]. split; [exact Hin|].
      apply andb_true_iff. split; [apply Z.ltb_lt | apply Z.leb_le]; assumption.
  - intros item Heq Hin. apply Hw in Hin as [_ Hb].
    unfold inWindow in Hb. rewrite Heq in Hb.
    destruct (getTime startDate) as [s|]; [|discriminate].
    destruct (getTime endDate) as [e|]; [|discriminate].
    apply andb_true_iff in Hb as [Hs _]. apply Z.ltb_lt in Hs. lia.
  - intros item s e Hin Hs He Hlt Hm. apply Hw. split; [exact Hin|].
    unfold inWindow. rewrite Hm, Hs, He.
    apply andb_true_iff. split; [apply Z.ltb_lt | apply Z.leb_le]; lia.
Qed.

End Events.

Section EventsAtIsoDates.
Import Js Types GenericFunctions.

(** C6, as the claim states it, fails: [modified > created + 1000] is
    strict, so a modification exactly 1000 ms after the creation is not
    ['updated']. *)
Lemma filterByEventType_one_second_not_updated :
  getTime (JsDate := IsoDate.date) (created Examples.oneSecondLater) = Some 1765706400000
  /\ getTime (JsDate := IsoDate.date) (modified Examples.oneSecondLater)
     = Some (1765706400000 + 1000)
  /\ filterByEventType (H := IsoDate.date) [Examples.oneSecondLater] "updated" = []
  /\ ~ In Examples.oneSecondLater
         (filterByEventType (H := IsoDate.date) [Examples.oneSecondLater] "updated").
Proof.
  split; [reflexivity|]. split; [reflexivity|].
  assert (E : filterByEventType (H := IsoDate.date) [Examples.oneSecondLater] "updated" = [])
    by (vm_compute; reflexivity).
  split; [exact E|]. rewrite E. intros [].
Qed.

(** C5 at the four delays: 0 ms and 500 ms are ['created'], 1500 ms is
    ['updated'], and ['deleted'] filters nothing. *)
Lemma filterByEventType_classification_witness :
  In Examples.untouched (filterByEventType (H := IsoDate.date) Examples.delayed "created")
  /\ In Examples.halfSecondLater
       (filterByEventType (H := IsoDate.date) Examples.delayed "created")
  /\ ~ In Examples.halfSecondLater
         (filterByEventType (H := IsoDate.date) Examples.delayed "updated")
  /\ In Examples.oneAndHalfSecondsLater
       (filterByEventType (H := IsoDate.date) Examples.delayed "updated")
  /\ filterByEventType (H := IsoDate.date) Examples.delayed "deleted" = Examples.delayed.
Proof.
  pose proof (filterByEventType_classification (H := IsoDate.date) Examples.delayed)
    as (_ & _ & Hother & Hcases).
  assert (H0 : In Examples.untouched Examples.delayed) by (simpl; tauto).
  assert (H1 : In Examples.halfSecondLater Examples.delayed) by (simpl; tauto).
  assert (H2 : In Examples.oneAndHalfSecondsLater Examples.delayed) by (simpl; tauto).
  split; [exact (proj1 (Hcases _ 1765706400000 H0 eq_refl) eq_refl)|].
  destruct (proj1 (proj2 (Hcases _ 1765706400000 H1 eq_refl)) eq_refl) as [Hin Hout].
  split; [exact Hin|]. split; [exact Hout|].
  split; [exact (proj1 (proj2 (proj2 (Hcases _ 1765706400000 H2 eq_refl)) eq_refl))|].
  apply Hother; discriminate.
Defined.

(** The amended C6 at the resource modified exactly one second later. *)
Lemma filterByEventType_exactly_one_second_witness :
  ~ In Examples.oneSecondLater
      (filterByEventType (H := IsoDate.date) Examples.delayed "updated")
  /\ ~ In Examples.oneSecondLater
        (filterByEventType (H := IsoDate.date) Examples.delayed "created").
Proof.
  pose proof (filterByEventType_exactly_one_second (H := IsoDate.date) Examples.delayed
                Examples.oneSecondLater 1765706400000 eq_refl eq_refl) as (Hu & Hc & _).
  split; assumption.
Defined.

(** C10 at a resource that is ['created']: it is not ['updated']. *)
Lemma created_and_updated_exclusive_witness :
  ~ In Examples.untouched (filterByEventType (H := IsoDate.date) Examples.delayed "updated").
Proof.
  apply (proj1 (created_and_updated_exclusive (H := IsoDate.date)
                  Examples.delayed Examples.delayed Examples.untouched)).
  simpl. tauto.
Defined.

(** C7 at the window from [10:00:00] to [10:00:02]: the resource modified
    at the start is out, the one modified at the end is in. *)
Lemma filterByModifiedTime_window_witness :
  ~ In Examples.untouched
      (filterByModifiedTime (H := IsoDate.date) [Examples.untouched; Examples.itemB]
         "2025-12-14T10:00:00Z" "2025-12-14T10:00:02Z")
  /\ In Examples.itemB
       (filterByModifiedTime (H := IsoDate.date) [Examples.untouched; Examples.itemB]
          "2025-12-14T10:00:00Z" "2025-12-14T10:00:02Z").
Proof.
  pose proof (filterByModifiedTime_window (H := IsoDate.date)
                [Examples.untouched; Examples.itemB]
                "2025-12-14T10:00:00Z" "2025-12-14T10:00:02Z") as (_ & Hstart & Hend).
  split; [apply Hstart; reflexivity|].
  apply (Hend _ 1765706400000 1765706402000); [simpl; tauto | reflexivity..| lia | reflexivity].
Defined.

End EventsAtIsoDates.

(** ** The path scope *)

Section PathScope.
Import Js Types GenericFunctions.

Lemma trimStart_blank (w : string) : isBlank w = true -> trimStart w = "".
Proof.
  induction w as [|c w IH]; simpl; [reflexivity|].
  intros Hb. apply andb_true_iff in Hb as [Hc Hw]. rewrite Hc. auto.
Qed.

Lemma trimEnd_blank (w : string) : isBlank w = true -> trimEnd w = "".
Proof.
  induction w as [|c w IH]; simpl; [reflexivity|].
  intros Hb. apply andb_true_iff in Hb as [Hc Hw]. rewrite (IH Hw), Hc. reflexivity.
Qed.

Lemma trimStart_nil_blank (s : string) : trimStart s = "" -> isBlank s = true.
Proof.
  induction s as [|c s IH]; simpl; [reflexivity|].
  destruct (isWhiteSpace c); [exact IH | discriminate].
Qed.

Lemma trimStart_padded (w s : string) :
  isBlank w = true -> trimStart (w ++ s) = trimStart s.
Proof.
  induction w as [|c w IH]; simpl; [reflexivity|].
  intros Hb. apply andb_true_iff in Hb as [Hc Hw]. rewrite Hc. auto.
Qed.

Lemma trimStart_app (s w : string) :
  trimStart s <> "" -> trimStart (s ++ w) = trimStart s ++ w.
Proof.
  induction s as [|c s IH]; simpl; [congruence|].
  destruct (isWhiteSpace c); [exact IH | reflexivity].
Qed.

Lemma trimEnd_padded (s w : string) :
  isBlank w = true -> trimEnd (s ++ w) = trimEnd s.
Proof.
  intros Hb. induction s as [|c s IH]; simpl.
  - apply trimEnd_blank, Hb.
  - rewrite IH. reflexivity.
Qed.

(** White space around a string does not change what [trim] answers. *)
Lemma trim_padded (w1 s w2 : string) :
  isBlank w1 = true -> isBlank w2 = true -> trim (w1 ++ s ++ w2) = trim s.
Proof.
  intros H1 H2. unfold trim. rewrite (trimStart_padded _ _ H1).
  destruct (string_dec (trimStart s) "") as [E|E].
  - rewrite E. pose proof (trimStart_nil_blank _ E) as Hs.
    rewrite trimStart_blank; [reflexivity|].
    clear E. induction s as [|c s IH]; simpl in *; [exact H2|].
    apply andb_true_iff in Hs as [Hc Hs]. rewrite Hc. auto.
  - rewrite (trimStart_app _ _ E). apply trimEnd_padded, H2.
Qed.

Lemma normalizePath_padded (w1 s w2 : string) :
  isBlank w1 = true -> isBlank w2 = true ->
  normalizePath (w1 ++ s ++ w2) = normalizePath s.
Proof.
  intros H1 H2. unfold normalizePath. rewrite (trim_padded _ _ _ H1 H2). reflexivity.
Qed.

(** The vendor prefix is always there after the normalization. *)
Lemma normalizePath_vendor_prefix (targetPath : string) :
  startsWith "disk:" (normalizePath targetPath) = true.
Proof.
  unfold normalizePath. set (t := trim targetPath).
  set (q := if negb (startsWith "disk:" t) then _ else _).
  assert (Hq : startsWith "disk:" q = true).
  { subst q. destruct (startsWith "disk:" t) eqn:E; simpl; [exact E|].
    destruct (negb (startsWith "/" t)); reflexivity. }
  destruct (endsWith "/" q && negb (String.eqb q "disk:/")) eqn:Hstrip; [|exact Hq].
  apply startsWith_spec in Hq as [r ->].
  destruct r as [|c r]; [discriminate Hstrip|].
  destruct r as [|c' r].
  - apply andb_true_iff in Hstrip as [Hend Hne].
    simpl in Hend. rewrite orb_false_r in Hend.
    repeat match type of Hend with
           | (if ?b then false else false) = true => destruct b; discriminate
           | (?a || ?b)%bool = true => simpl in Hend
           end.
    reflexivity.
  - reflexivity.
Qed.

Lemma underPath_spec (normalizedPath : string) (item : IYandexDiskResource) :
  underPath normalizedPath item = true <->
  path item = normalizedPath \/ exists rest, path item = normalizedPath ++ "/" ++ rest.
Proof.
  unfold underPath. rewrite orb_true_iff, String.eqb_eq, startsWith_spec.
  split; (intros [E|[rest E]]; [left; exact E | right; exists rest]).
  - rewrite E. apply append_assoc.
  - rewrite E. symmetry. apply append_assoc.
Qed.

(** A path that continues the scope with anything but a slash is outside. *)
Lemma underPath_segment (normalizedPath : string) (item : IYandexDiskResource)
    (c : ascii) (rest : string) :
  path item = normalizedPath ++ String c rest -> c <> "/"%char ->
  underPath normalizedPath item = false.
Proof.
  intros Hp Hc. apply not_true_is_false. intros Hu.
  apply underPath_spec in Hu as [E|[rest' E]]; rewrite Hp in E.
  - symmetry in E. apply append_nil_r_inv in E. discriminate E.
  - apply append_inv_head in E. simpl in E. congruence.
Qed.

Lemma trimStart_length (s : string) :
  trimStart s = s \/ (String.length (trimStart s) < String.length s)%nat.
Proof.
  induction s as [|c s IH]; simpl; [left; reflexivity|].
  destruct (isWhiteSpace c); [right | left; reflexivity].
  destruct IH as [->|IH]; lia.
Qed.

Lemma trimEnd_length (s : string) :
  (String.length (trimEnd s) <= String.length s)%nat.
Proof.
  induction s as [|c s IH]; simpl; [lia|].
  destruct (trimEnd s); [destruct (isWhiteSpace c)|]; simpl in *; lia.
Qed.

(** A string that [trim] leaves alone has no white space at either end. *)
Lemma trim_fixed (d : string) : trim d = d -> trimStart d = d /\ trimEnd d = d.
Proof.
  intros E. unfold trim in E.
  assert (Hs : trimStart d = d).
  { destruct (trimStart_length d) as [Hs|Hs]; [exact Hs|].
    pose proof (trimEnd_length (trimStart d)) as He. rewrite E in He. lia. }
  rewrite Hs in E. auto.
Qed.

Lemma trimEnd_app_keep (x y : string) :
  trimEnd y <> "" -> trimEnd (x ++ y) = x ++ trimEnd y.
Proof.
  intros Hy. induction x as [|c x IH]; simpl; [reflexivity|].
  rewrite IH. destruct (x ++ trimEnd y) eqn:E; [|reflexivity].
  destruct x; simpl in E; congruence.
Qed.

Lemma endsWith_slash_app (x : string) : endsWith "/" (x ++ "/") = true.
Proof.
  induction x as [|c x IH]; [reflexivity|].
  change (String.eqb "/" (String c (x ++ "/")) || endsWith "/" (x ++ "/") = true).
  rewrite IH. apply orb_true_r.
Qed.

Lemma endsWith_slash_after (x d : string) :
  d <> "" -> endsWith "/" (x ++ d) = endsWith "/" d.
Proof.
  intros Hd. induction x as [|c x IH]; [reflexivity|].
  change (String.eqb "/" (String c (x ++ d)) || endsWith "/" (x ++ d) = endsWith "/" d).
  rewrite IH. destruct (String.eqb_spec "/" (String c (x ++ d))) as [E|_]; [|reflexivity].
  injection E as _ E. destruct x; simpl in E; congruence.
Qed.

Lemma dropLast_app (x : string) (c : ascii) : dropLast (x ++ String c "") = x.
Proof.
  induction x as [|a x IH]; [reflexivity|].
  simpl. rewrite IH. destruct x; reflexivity.
Qed.

Lemma startsWith_app_r (p d e : string) :
  startsWith p (d ++ e) = true ->
  startsWith p d = true \/ exists p2, p = d ++ p2 /\ startsWith p2 e = true.
Proof.
  revert d. induction p as [|a p IH]; intros d Hs; [left; reflexivity|].
  destruct d as [|b d]; [right; exists (String a p); auto|].
  cbn [startsWith String.append] in *.
  destruct (Ascii.eqb_spec a b) as [->|]; [|discriminate Hs].
  destruct (IH d Hs) as [Hd|(p2 & -> & Hp2)]; [left; exact Hd|].
  right. exists p2. auto.
Qed.

Lemma startsWith_vendor_slash (d : string) :
  startsWith "disk:" d = false -> startsWith "disk:" (d ++ "/") = false.
Proof.
  intros Hd. apply not_true_is_false. intros Hs.
  apply startsWith_app_r in Hs as [Hs|(p2 & E & Hp2)]; [congruence|].
  destruct p2 as [|c p2].
  - rewrite append_nil_r in E. subst d. discriminate Hd.
  - cbn [startsWith] in Hp2.
    destruct (Ascii.eqb_spec c "/") as [->|]; [clear Hp2 | discriminate Hp2].
    do 5 (destruct d as [|? d]; [discriminate E | injection E as _ E]).
    destruct d; discriminate E.
Qed.

(** The spellings of one folder: with or without the vendor prefix, the
    leading slash, one trailing slash and white space around, the
    normalized path is the folder under [disk:/]. *)
Lemma normalizePath_spellings (d lead trail w1 w2 : string) :
  trim d = d -> d <> "" ->
  startsWith "/" d = false -> startsWith "disk:" d = false -> endsWith "/" d = false ->
  In lead [""; "/"; "disk:/"] -> In trail [""; "/"] ->
  isBlank w1 = true -> isBlank w2 = true ->
  normalizePath (w1 ++ (lead ++ d ++ trail) ++ w2) = "disk:/" ++ d.
Proof.
  intros Htrim Hne Hslash Hvendor Hend Hlead Htrail H1 H2.
  rewrite (normalizePath_padded _ _ _ H1 H2).
  apply trim_fixed in Htrim as [Hts Hte].
  assert (Hdne : d ++ trail <> "") by (destruct d; [congruence | discriminate]).
  assert (Hs' : trimStart (d ++ trail) = d ++ trail)
    by (rewrite trimStart_app, Hts by congruence; reflexivity).
  assert (He' : trimEnd (d ++ trail) = d ++ trail).
  { destruct Htrail as [<-|[<-|[]]].
    - rewrite append_nil_r. exact Hte.
    - apply trimEnd_app_keep. discriminate. }
  assert (Hkeep : forall x, trimEnd (x ++ d ++ trail) = x ++ d ++ trail).
  { intros x. rewrite trimEnd_app_keep by congruence. rewrite He'. reflexivity. }
  assert (Hq : normalizePath (lead ++ d ++ trail) =
               if endsWith "/" ("disk:/" ++ d ++ trail)
                  && negb (String.eqb ("disk:/" ++ d ++ trail) "disk:/")
               then dropLast ("disk:/" ++ d ++ trail) else "disk:/" ++ d ++ trail).
  { unfold normalizePath.
    assert (Ht : trim (lead ++ d ++ trail) = lead ++ d ++ trail).
    { unfold trim. destruct Hlead as [<-|[<-|[<-|[]]]].
      - change ("" ++ d ++ trail) with (d ++ trail). rewrite Hs'. exact He'.
      - change (trimStart ("/" ++ d ++ trail)) with ("/" ++ d ++ trail). apply Hkeep.
      - change (trimStart ("disk:/" ++ d ++ trail)) with ("disk:/" ++ d ++ trail).
        apply Hkeep. }
    rewrite Ht.
    assert (Hv : startsWith "disk:" (d ++ trail) = false).
    { destruct Htrail as [<-|[<-|[]]];
        [rewrite append_nil_r; exact Hvendor | apply startsWith_vendor_slash, Hvendor]. }
    assert (Hs : startsWith "/" (d ++ trail) = false).
    { destruct d; [congruence | exact Hslash]. }
    destruct Hlead as [<-|[<-|[<-|[]]]].
    - change ("" ++ d ++ trail) with (d ++ trail). rewrite Hv, Hs. reflexivity.
    - reflexivity.
    - reflexivity. }
  rewrite Hq. destruct Htrail as [<-|[<-|[]]].
  - rewrite append_nil_r.
    rewrite (endsWith_slash_after "disk:/" d Hne), Hend. reflexivity.
  - change ("disk:/" ++ d ++ "/") with (("disk:/" ++ d) ++ "/").
    rewrite endsWith_slash_app, dropLast_app.
    destruct (String.eqb_spec (("disk:/" ++ d) ++ "/") "disk:/") as [E|_]; [|reflexivity].
    destruct d; [congruence|]. simpl in E. discriminate E.
Qed.

(** The early return of [filterByPath] is a case of its root test. *)
Lemma filterByPath_normalized (items : list IYandexDiskResource) (targetPath : string) :
  filterByPath items targetPath =
  if String.eqb (normalizePath targetPath) "disk:/" then items
  else List.filter (underPath (normalizePath targetPath)) items.
Proof.
  unfold filterByPath, truthy.
  destruct (String.eqb_spec targetPath "") as [->|]; [reflexivity|].
  destruct (String.eqb_spec targetPath "/") as [->|]; reflexivity.
Qed.

(** C8, as the claim states it, fails at the bare vendor prefix: the scope
    ["disk:"] is not a root scope, it is filtered like any other, and a
    resource whose path has another vendor prefix does not pass. *)
Lemma filterByPath_bare_prefix_filters :
  normalizePath "disk:" = "disk:"
  /\ filterByPath [Examples.trashed; Examples.imagePng] "disk:" = [Examples.imagePng]
  /\ ~ (forall items, filterByPath items "disk:" = items).
Proof.
  split; [reflexivity|]. split; [reflexivity|].
  intros Hall. specialize (Hall [Examples.trashed; Examples.imagePng]).
  discriminate Hall.
Qed.

(** C8 (amended): the normalized path always carries the vendor prefix;
    white space around the configured path does not matter; a folder may be
    spelled with or without the prefix, the leading slash and one trailing
    slash.  A scope that is empty, ["/"], ["disk:/"] or normalizes to
    ["disk:/"] passes every item through.  Any other scope keeps, in
    order, exactly the items whose path is the normalized path or starts
    with it and a slash, so a path that continues the scope with another
    character is out.  The bare prefix ["disk:"] is such a scope: it keeps
    the paths ["disk:"] and ["disk:/..."]. *)
Theorem filterByPath_scope (items : list IYandexDiskResource) (targetPath : string) :
  let normalizedPath := normalizePath targetPath in
  startsWith "disk:" normalizedPath = true
  /\ (forall w1 w2, isBlank w1 = true -> isBlank w2 = true ->
        filterByPath items (w1 ++ targetPath ++ w2) = filterByPath items targetPath)
  /\ (forall d lead trail, trim d = d -> d <> "" ->
        startsWith "/" d = false -> startsWith "disk:" d = false -> endsWith "/" d = false ->
        In lead [""; "/"; "disk:/"] -> In trail [""; "/"] ->
        normalizePath (lead ++ d ++ trail) = "disk:/" ++ d)
  /\ (targetPath = "" \/ targetPath = "/" \/ targetPath = "disk:/"
        \/ normalizedPath = "disk:/" ->
        filterByPath items targetPath = items)
  /\ (normalizedPath <> "disk:/" ->
        filterByPath items targetPath = List.filter (underPath normalizedPath) items
        /\ (forall item, In item (filterByPath items targetPath) <->
               In item items
               /\ (path item = normalizedPath
                   \/ exists rest, path item = normalizedPath ++ "/" ++ rest))
        /\ (forall item c rest,
               path item = normalizedPath ++ String c rest -> c <> "/"%char ->
               ~ In item (filterByPath items targetPath)))
  /\ (forall item, In item (filterByPath items "disk:") <->
        In item items
        /\ (path item = "disk:" \/ exists rest, path item = "disk:/" ++ rest)).
Proof.
  intros normalizedPath. subst normalizedPath.
  split; [apply normalizePath_vendor_prefix|].
  split.
  { intros w1 w2 H1 H2.
    rewrite !filterByPath_normalized, (normalizePath_padded _ _ _ H1 H2). reflexivity. }
  split.
  { intros d lead trail Ht Hne Hs Hv He Hlead Htrail.
    pose proof (normalizePath_spellings d lead trail "" "" Ht Hne Hs Hv He Hlead Htrail
                  eq_refl eq_refl) as E.
    rewrite append_nil_r in E. exact E. }
  split.
  { intros Hroot. rewrite filterByPath_normalized.
    assert (E : normalizePath targetPath = "disk:/")
      by (destruct Hroot as [->|[->|[->|E]]]; trivial).
    rewrite E. reflexivity. }
  split.
  { intros Hne.
    assert (E : filterByPath items targetPath
                = List.filter (underPath (normalizePath targetPath)) items).
    { rewrite filterByPath_normalized.
      destruct (String.eqb_spec (normalizePath targetPath) "disk:/"); [contradiction|].
      reflexivity. }
    split; [exact E|]. rewrite E. split.
    - intros item. rewrite filter_In, underPath_spec. reflexivity.
    - intros item c rest Hp Hc Hin. apply filter_In in Hin as [_ Hu].
      rewrite (underPath_segment _ _ _ _ Hp Hc) in Hu. discriminate Hu. }
  intros item.
  change (filterByPath items "disk:") with (List.filter (underPath "disk:") items).
  rewrite filter_In, underPath_spec. reflexivity.
Qed.

(** The amended C8 at the scope ["n8n"] of the specification. *)
Lemma filterByPath_scope_witness :
  filterByPath Examples.n8nItems "" = Examples.n8nItems
  /\ filterByPath Examples.n8nItems "  n8n  " = filterByPath Examples.n8nItems "n8n"
  /\ normalizePath "disk:/n8n/" = "disk:/n8n"
  /\ In (Examples.atPath "disk:/n8n") (filterByPath Examples.n8nItems "n8n")
  /\ In (Examples.atPath "disk:/n8n/anything") (filterByPath Examples.n8nItems "n8n")
  /\ ~ In (Examples.atPath "disk:/n8n123/file.txt") (filterByPath Examples.n8nItems "n8n").
Proof.
  pose proof (filterByPath_scope Examples.n8nItems "") as (_ & _ & _ & Hroot & _).
  pose proof (filterByPath_scope Examples.n8nItems "n8n")
    as (_ & Hpad & Hspell & _ & Hscope & _).
  assert (Hne : normalizePath "n8n" <> "disk:/") by discriminate.
  destruct (Hscope Hne) as (_ & Hin & Hout).
  split; [apply Hroot; left; reflexivity|].
  split; [exact (Hpad "  " "  " eq_refl eq_refl)|].
  split.
  { apply (Hspell "n8n" "disk:/" "/"); try reflexivity; try discriminate; simpl; tauto. }
  split; [apply Hin; split; [simpl; tauto | left; reflexivity]|].
  split; [apply Hin; split; [simpl; tauto | right; exists "anything"; reflexivity]|].
  apply (Hout _ "1"%char "23/file.txt"); [reflexivity | discriminate].
Defined.

End PathScope.

(** ** The poll cycle *)

Section PollCycle.
Import Js Types GenericFunctions Trigger.
Context `{JsDate}.
Variable FILE_TYPE_TO_MEDIA_TYPE : string -> option string.

#[local] Abbreviation poll := (poll FILE_TYPE_TO_MEDIA_TYPE).
#[local] Abbreviation filteredSet := (filteredSet FILE_TYPE_TO_MEDIA_TYPE).
#[local] Abbreviation runCycles := (runCycles FILE_TYPE_TO_MEDIA_TYPE).
#[local] Abbreviation recentOptionsOf := (recentOptionsOf FILE_TYPE_TO_MEDIA_TYPE).
#[local] Abbreviation cycle := (cycle FILE_TYPE_TO_MEDIA_TYPE).

Ltac unfold_poll :=
  unfold Trigger.poll, Trigger.pollManual, Trigger.fetchAndFilter, Trigger.filteredSet,
    try_catch, getStaticData, setStaticData, lift, throw, mbind, M_bind, mret, M_ret,
    result_bind.

(** What the outermost [catch] throws is a structured error. *)
Lemma outerCatch_structured (e : Error) :
  isNodeApiError (outerCatch e) || isNodeOperationError (outerCatch e) = true.
Proof. destruct e; reflexivity. Qed.

Lemma outerCatch_manualCatch (e : Error) : outerCatch (manualCatch e) = manualCatch e.
Proof. destruct e; reflexivity. Qed.

(** A parameter that cannot be read ends the cycle before its [try]. *)
Lemma poll_no_parameters (this : IPollFunctions) (webhookData : gmap string string)
    (e : Error) :
  readParameters this = Throw e -> poll this webhookData = (webhookData, Throw e).
Proof. intros Hp. unfold_poll. rewrite Hp. reflexivity. Qed.

(** Without credentials or without a token the cycle throws at once. *)
Lemma poll_no_api (this : IPollFunctions) (webhookData : gmap string string)
    (parameters : Parameters) (e : Error) :
  readParameters this = Ok parameters ->
  getCredentials this = Throw e
  \/ (exists credentials, getCredentials this = Ok credentials
        /\ initializeYandexDiskApi (sdk this) credentials = Throw e) ->
  poll this webhookData = (webhookData, Throw (outerCatch e)).
Proof.
  intros Hp [Hc|(credentials & Hc & Hi)]; unfold_poll; rewrite Hp, Hc; [reflexivity|].
  rewrite Hi. reflexivity.
Qed.

(** The manual branch, once the API client is there. *)
Lemma poll_manual (this : IPollFunctions) (webhookData : gmap string string)
    (parameters : Parameters) (credentials : Credentials) (api : Api) :
  isManual this = true ->
  readParameters this = Ok parameters ->
  getCredentials this = Ok credentials ->
  initializeYandexDiskApi (sdk this) credentials = Ok api ->
  poll this webhookData =
  (webhookData,
   match recent api {| recent_limit := 1; recent_media_type := None |} with
   | Ok response =>
       if (length (itemsOf response) =? 0)%nat then
         Throw (NodeApiError "No recent files found in Yandex Disk"
                  (Some "Upload some files to your Yandex Disk to test this trigger"))
       else Ok (Some [returnJsonArray (itemsOf response)])
   | Throw e => Throw (manualCatch e)
   end).
Proof.
  intros Hm Hp Hc Hi. unfold_poll. rewrite Hp, Hc, Hi, Hm.
  destruct (recent api _) as [response|e].
  - destruct (length (itemsOf response) =? 0)%nat; reflexivity.
  - rewrite outerCatch_manualCatch. reflexivity.
Qed.

(** The automated branch, once the API client is there. *)
Lemma poll_automated (this : IPollFunctions) (webhookData : gmap string string)
    (parameters : Parameters) (credentials : Credentials) (api : Api) :
  isManual this = false ->
  readParameters this = Ok parameters ->
  getCredentials this = Ok credentials ->
  initializeYandexDiskApi (sdk this) credentials = Ok api ->
  poll this webhookData =
  match filteredSet this parameters api webhookData with
  | Ok items =>
      (<["lastTimeChecked" := moment_utc_format this]> webhookData,
       Ok (if (0 <? length items)%nat then Some [returnJsonArray items] else None))
  | Throw _ => (webhookData, Throw fetchFailed)
  end.
Proof.
  intros Hm Hp Hc Hi. unfold_poll. rewrite Hp, Hc, Hi, Hm.
  destruct (recent api _) as [response|e]; [|reflexivity].
  destruct (pipeline _ _ _ _ _) as [items|e]; [|reflexivity].
  destruct (0 <? length items)%nat; reflexivity.
Qed.

Lemma manualCatch_api (e : Error) : isNodeApiError (manualCatch e) = true.
Proof. destruct e; reflexivity. Qed.

(** [poll] goes one of these ways. *)
Lemma poll_cycle (this : IPollFunctions) (webhookData : gmap string string) :
  cycle this webhookData (poll this webhookData).
Proof.
  destruct (readParameters this) as [parameters|e0] eqn:Hp;
    [|rewrite (poll_no_parameters _ _ _ Hp); apply cycle_no_parameters, Hp].
  destruct (getCredentials this) as [credentials|e0] eqn:Hc;
    [|rewrite (poll_no_api this webhookData parameters e0) by auto;
      eapply cycle_no_api; eauto].
  destruct (initializeYandexDiskApi (sdk this) credentials) as [api|e0] eqn:Hi;
    [|rewrite (poll_no_api this webhookData parameters e0) by eauto;
      eapply cycle_no_api; eauto].
  destruct (isManual this) eqn:Hm.
  - rewrite (poll_manual this webhookData parameters credentials api Hm Hp Hc Hi).
    eapply cycle_manual; [exact Hp | exact Hc | exact Hi | exact Hm |].
    destruct (recent api _) as [response|e0].
    + destruct (length (itemsOf response) =? 0)%nat; intros e E; inversion E; reflexivity.
    + intros e E; inversion E. apply manualCatch_api.
  - rewrite (poll_automated this webhookData parameters credentials api Hm Hp Hc Hi).
    destruct (filteredSet this parameters api webhookData) as [items|e0] eqn:Hf.
    + eapply cycle_completed; eassumption.
    + eapply cycle_fetch_failed; eassumption.
Qed.

(** A manual invocation leaves the static data as it found them. *)
Lemma poll_manual_frame (this : IPollFunctions) (webhookData : gmap string string) :
  isManual this = true -> fst (poll this webhookData) = webhookData.
Proof.
  intros Hm. destruct (poll_cycle this webhookData); trivial; congruence.
Qed.

(** An automated cycle that returns has fetched and filtered. *)
Lemma poll_automated_returns (this : IPollFunctions)
    (webhookData webhookData' : gmap string string)
    (r : option (list (list INodeExecutionData))) :
  isManual this = false ->
  poll this webhookData = (webhookData', Ok r) ->
  exists parameters credentials api items,
    readParameters this = Ok parameters
    /\ getCredentials this = Ok credentials
    /\ initializeYandexDiskApi (sdk this) credentials = Ok api
    /\ filteredSet this parameters api webhookData = Ok items
    /\ webhookData' = <["lastTimeChecked" := moment_utc_format this]> webhookData
    /\ r = if (0 <? length items)%nat then Some [returnJsonArray items] else None.
Proof.
  intros Hm Hp. pose proof (poll_cycle this webhookData) as Hc. rewrite Hp in Hc.
  inversion Hc; subst; try congruence.
  do 4 eexists. eauto 10.
Qed.

(** C1: an automated cycle that returns, with a batch or with [null],
    has overwritten [lastTimeChecked] with the time captured at its start
    and has touched no other key; when that time is not before the stored
    checkpoint, the checkpoint has not moved back. *)
Theorem automated_cycle_advances_checkpoint (this : IPollFunctions)
    (webhookData webhookData' : gmap string string)
    (r : option (list (list INodeExecutionData))) :
  isManual this = false ->
  poll this webhookData = (webhookData', Ok r) ->
  webhookData' = <["lastTimeChecked" := moment_utc_format this]> webhookData
  /\ webhookData' !! "lastTimeChecked" = Some (moment_utc_format this)
  /\ (forall key, key <> "lastTimeChecked" -> webhookData' !! key = webhookData !! key)
  /\ (forall before now,
        checkpointTime webhookData = Some before ->
        getTime (moment_utc_format this) = Some now ->
        before <= now ->
        exists after, checkpointTime webhookData' = Some after /\ before <= after).
Proof.
  intros Hm Hp.
  apply (poll_automated_returns _ _ _ _ Hm) in Hp
    as (parameters & credentials & api & items & _ & _ & _ & _ & -> & _).
  split; [reflexivity|].
  split; [apply lookup_insert_eq|].
  split; [intros key Hk; apply lookup_insert_ne; congruence|].
  intros before now _ Hnow Hle. exists now. split; [|exact Hle].
  unfold checkpointTime. rewrite lookup_insert_eq. exact Hnow.
Qed.

(** C2: a manual invocation, whether it returns a batch or throws, leaves
    the static data as it found them; so a series of invocations ends with
    the static data that its automated cycles alone would leave. *)
Theorem manual_invocations_leave_checkpoint :
  (forall this webhookData,
     isManual this = true -> fst (poll this webhookData) = webhookData)
  /\ (forall cycles webhookData,
        runCycles cycles webhookData =
        runCycles (List.filter (fun this => negb (isManual this)) cycles) webhookData).
Proof.
  split; [apply poll_manual_frame|].
  induction cycles as [|this cycles IH]; intros webhookData; [reflexivity|].
  cbn [Trigger.runCycles List.filter].
  destruct (isManual this) eqn:Hm; cbn [negb Trigger.runCycles].
  - rewrite (poll_manual_frame _ _ Hm). apply IH.
  - apply IH.
Qed.

(** C3: an automated cycle returns [null] when its filtered set is empty
    and the one batch of that set otherwise; it returns nothing else, in
    particular no empty batch. *)
Theorem automated_cycle_null_or_batch (this : IPollFunctions)
    (webhookData : gmap string string) :
  isManual this = false ->
  (forall parameters credentials api items,
     readParameters this = Ok parameters ->
     getCredentials this = Ok credentials ->
     initializeYandexDiskApi (sdk this) credentials = Ok api ->
     filteredSet this parameters api webhookData = Ok items ->
     snd (poll this webhookData) =
     Ok match items with
        | [] => None
        | _ :: _ => Some [returnJsonArray items]
        end)
  /\ (forall webhookData' r,
        poll this webhookData = (webhookData', Ok r) ->
        (exists parameters credentials api items,
           readParameters this = Ok parameters
           /\ getCredentials this = Ok credentials
           /\ initializeYandexDiskApi (sdk this) credentials = Ok api
           /\ filteredSet this parameters api webhookData = Ok items
           /\ ((items = [] /\ r = None)
               \/ (items <> [] /\ r = Some [returnJsonArray items])))
        /\ r <> Some [] /\ r <> Some [[]]).
Proof.
  intros Hm. split.
  - intros parameters credentials api items Hp Hc Hi Hf.
    rewrite (poll_automated this webhookData parameters credentials api Hm Hp Hc Hi), Hf.
    destruct items; reflexivity.
  - intros webhookData' r Hp.
    apply (poll_automated_returns _ _ _ _ Hm) in Hp
      as (parameters & credentials & api & items & Hr & Hc & Hi & Hf & _ & ->).
    destruct items as [|item items]; cbn [length Nat.ltb Nat.leb].
    + split; [exists parameters, credentials, api, [];
              repeat (split; [assumption|]); left; split; reflexivity|].
      split; discriminate.
    + split; [exists parameters, credentials, api, (item :: items);
              repeat (split; [assumption|]); right;
              split; [discriminate | reflexivity]|].
      split; discriminate.
Qed.

(** C9: when the remote fetch of an automated cycle fails, the cycle
    throws one [NodeApiError] and the static data are as before; so it does
    when anything between the fetch and the last filter fails, that is
    whenever the filtered set of the cycle is not there.  Whatever a cycle
    throws, the static data are as before, and past the reading of the
    parameters what it throws is a structured error.  The static data
    change only in an automated cycle that returns and whose own fetch and
    filters, with the parameters, the credentials and the API client of
    that cycle, completed; a cycle whose fetch or filters failed leaves
    them as they were. *)
Theorem failed_fetch_aborts_cycle (this : IPollFunctions)
    (webhookData : gmap string string) :
  (forall parameters credentials api e,
     isManual this = false ->
     readParameters this = Ok parameters ->
     getCredentials this = Ok credentials ->
     initializeYandexDiskApi (sdk this) credentials = Ok api ->
     recent api (recentOptionsOf (options parameters)) = Throw e ->
     poll this webhookData = (webhookData, Throw fetchFailed)
     /\ isNodeApiError fetchFailed = true)
  /\ (forall parameters credentials api e,
        isManual this = false ->
        readParameters this = Ok parameters ->
        getCredentials this = Ok credentials ->
        initializeYandexDiskApi (sdk this) credentials = Ok api ->
        filteredSet this parameters api webhookData = Throw e ->
        poll this webhookData = (webhookData, Throw fetchFailed))
  /\ (forall webhookData' e,
        poll this webhookData = (webhookData', Throw e) ->
        webhookData' = webhookData
        /\ (forall parameters, readParameters this = Ok parameters ->
              isNodeApiError e || isNodeOperationError e = true))
  /\ (forall webhookData' outcome,
        poll this webhookData = (webhookData', outcome) ->
        webhookData' = webhookData
        \/ (isManual this = false
            /\ webhookData' = <["lastTimeChecked" := moment_utc_format this]> webhookData
            /\ (exists r, outcome = Ok r)
            /\ exists parameters credentials api items,
                 readParameters this = Ok parameters
                 /\ getCredentials this = Ok credentials
                 /\ initializeYandexDiskApi (sdk this) credentials = Ok api
                 /\ filteredSet this parameters api webhookData = Ok items))
  /\ (forall parameters credentials api,
        isManual this = false ->
        readParameters this = Ok parameters ->
        getCredentials this = Ok credentials ->
        initializeYandexDiskApi (sdk this) credentials = Ok api ->
        (exists items, filteredSet this parameters api webhookData = Ok items)
        \/ fst (poll this webhookData) = webhookData).
Proof.
  split; [|split; [|split; [|split]]].
  - intros parameters credentials api e Hm Hp Hc Hi Hr. split; [|reflexivity].
    rewrite (poll_automated this webhookData parameters credentials api Hm Hp Hc Hi).
    unfold Trigger.filteredSet. rewrite Hr. reflexivity.
  - intros parameters credentials api e Hm Hp Hc Hi Hf.
    rewrite (poll_automated this webhookData parameters credentials api Hm Hp Hc Hi), Hf.
    reflexivity.
  - intros webhookData' e Hp. pose proof (poll_cycle this webhookData) as Hc.
    rewrite Hp in Hc. inversion Hc; subst; (split; [reflexivity|]); intros ps Hps.
    + congruence.
    + apply outerCatch_structured.
    + rewrite orb_true_iff. left. auto.
    + reflexivity.
  - intros webhookData' outcome Hp. pose proof (poll_cycle this webhookData) as Hc.
    rewrite Hp in Hc. inversion Hc; subst; try (left; reflexivity).
    right. split; [assumption|]. split; [reflexivity|]. split; eauto 10.
  - intros parameters credentials api Hm Hp Hc Hi.
    rewrite (poll_automated this webhookData parameters credentials api Hm Hp Hc Hi).
    destruct (filteredSet this parameters api webhookData) as [items|e];
      [left; exists items; reflexivity | right; reflexivity].
Qed.

End PollCycle.

(** ** The cycle at concrete invocations *)

Section PollAtIsoDates.
Import Js Types GenericFunctions Trigger Examples.

#[local] Abbreviation pollAt := (Trigger.poll (H := IsoDate.date) mediaTypes).
#[local] Abbreviation runAt := (Trigger.runCycles (H := IsoDate.date) mediaTypes).

(** The end-to-end scenario: the checkpoint at [T0], the resources A and
    B, the event ['created'], the scope ["/n8n"], every file type, a limit
    of 50 and the clock at [T0 + 5 s]: the cycle returns A alone and the
    checkpoint is [T0 + 5 s]. *)
Lemma scenario_returns_A :
  pollAt (host "trigger" (apiWith [itemA; itemB])) atT0
  = (<["lastTimeChecked" := "2025-12-14T10:00:05Z"]> atT0,
     Ok (Some [returnJsonArray [itemA]])).
Proof. vm_compute. reflexivity. Qed.

(** The same cycle with B alone: nothing survives the filters. *)
Lemma scenario_returns_null :
  pollAt (host "trigger" (apiWith [itemB])) atT0
  = (<["lastTimeChecked" := "2025-12-14T10:00:05Z"]> atT0, Ok None).
Proof. vm_compute. reflexivity. Qed.

(** C1 at the scenario, with a batch and with [null]: the checkpoint moves
    from [T0] to [T0 + 5 s] both times. *)
Lemma automated_cycle_advances_checkpoint_witness :
  fst (pollAt (host "trigger" (apiWith [itemA; itemB])) atT0) !! "lastTimeChecked"
  = Some "2025-12-14T10:00:05Z"
  /\ fst (pollAt (host "trigger" (apiWith [itemB])) atT0) !! "lastTimeChecked"
     = Some "2025-12-14T10:00:05Z"
  /\ exists after,
       checkpointTime (H := IsoDate.date)
         (fst (pollAt (host "trigger" (apiWith [itemB])) atT0)) = Some after
       /\ 1765706400000 <= after.
Proof.
  pose proof (automated_cycle_advances_checkpoint (H := IsoDate.date) mediaTypes
                (host "trigger" (apiWith [itemA; itemB])) atT0 _ _
                eq_refl scenario_returns_A) as (_ & HA & _).
  pose proof (automated_cycle_advances_checkpoint (H := IsoDate.date) mediaTypes
                (host "trigger" (apiWith [itemB])) atT0 _ _
                eq_refl scenario_returns_null) as (_ & HB & _ & Hmono).
  rewrite scenario_returns_A, scenario_returns_null. cbn [fst].
  split; [exact HA|]. split; [exact HB|].
  apply (Hmono 1765706400000 1765706405000); [reflexivity | reflexivity | lia].
Defined.

(** C2 at manual invocations that return a batch and that throw, alone
    and between two automated cycles. *)
Lemma manual_invocations_leave_checkpoint_witness :
  fst (pollAt (host "manual" (apiWith [itemB])) atT0) = atT0
  /\ fst (pollAt (host "manual" (apiWith [])) atT0) = atT0
  /\ fst (pollAt (host "manual" apiDown) atT0) = atT0
  /\ runAt [host "manual" (apiWith [itemB]); host "trigger" (apiWith [itemA]);
            host "manual" apiDown; host "trigger" (apiWith [])] atT0
     = runAt [host "trigger" (apiWith [itemA]); host "trigger" (apiWith [])] atT0.
Proof.
  pose proof (manual_invocations_leave_checkpoint (H := IsoDate.date) mediaTypes)
    as [Hone Hall].
  split; [apply Hone; reflexivity|].
  split; [apply Hone; reflexivity|].
  split; [apply Hone; reflexivity|].
  apply Hall.
Defined.

(** C3 at the scenario: the batch of A, and [null] when only B is there. *)
Lemma automated_cycle_null_or_batch_witness :
  snd (pollAt (host "trigger" (apiWith [itemA; itemB])) atT0)
  = Ok (Some [returnJsonArray [itemA]])
  /\ snd (pollAt (host "trigger" (apiWith [itemB])) atT0) = Ok None.
Proof.
  split.
  - apply (proj1 (automated_cycle_null_or_batch (H := IsoDate.date) mediaTypes
                    (host "trigger" (apiWith [itemA; itemB])) atT0 eq_refl)
             hostParameters {| oauthToken := Some "y0_token" |}
             (apiWith [itemA; itemB]) [itemA]);
      reflexivity.
  - apply (proj1 (automated_cycle_null_or_batch (H := IsoDate.date) mediaTypes
                    (host "trigger" (apiWith [itemB])) atT0 eq_refl)
             hostParameters {| oauthToken := Some "y0_token" |} (apiWith [itemB]) []);
      reflexivity.
Defined.

(** C9 at a remote API that is down, and at a remote API that answers
    while the path to filter by cannot be read: either cycle throws and the
    checkpoint stays at [T0]. *)
Lemma failed_fetch_aborts_cycle_witness :
  pollAt (host "trigger" apiDown) atT0 = (atT0, Throw fetchFailed)
  /\ pollAt (hostWithoutPath (apiWith [itemA; itemB])) atT0
     = (atT0, Throw fetchFailed).
Proof.
  split.
  - apply (proj1 (failed_fetch_aborts_cycle (H := IsoDate.date) mediaTypes
                    (host "trigger" apiDown) atT0)
             hostParameters {| oauthToken := Some "y0_token" |} apiDown
             (PlainError "connect ETIMEDOUT"));
      reflexivity.
  - apply (proj1 (proj2 (failed_fetch_aborts_cycle (H := IsoDate.date) mediaTypes
                           (hostWithoutPath (apiWith [itemA; itemB])) atT0))
             hostParameters {| oauthToken := Some "y0_token" |}
             (apiWith [itemA; itemB])
             (NodeOperationError "Could not get parameter"));
      reflexivity.
Defined.

End PollAtIsoDates.

(** * Further properties *)

(** ** Laws of the filter stages *)

Section FilterLaws.
Import Js Types GenericFunctions.
Context `{JsDate}.

Lemma filter_sublist {A : Type} (p : A -> bool) (l : list A) :
  sublist (List.filter p l) l.
Proof.
  induction l as [|x l IH]; simpl; [constructor|].
  destruct (p x); [apply sublist_skip | apply sublist_cons]; exact IH.
Qed.

Lemma filter_comm {A : Type} (p q : A -> bool) (l : list A) :
  List.filter p (List.filter q l) = List.filter q (List.filter p l).
Proof.
  induction l as [|x l IH]; simpl; [reflexivity|].
  destruct (p x) eqn:Hp, (q x) eqn:Hq; simpl; rewrite ?Hp, ?Hq, IH; reflexivity.
Qed.

Lemma filter_idem {A : Type} (p : A -> bool) (l : list A) :
  List.filter p (List.filter p l) = List.filter p l.
Proof.
  induction l as [|x l IH]; simpl; [reflexivity|].
  destruct (p x) eqn:Hp; simpl; rewrite ?Hp, IH; reflexivity.
Qed.

(** Filtering the first [n] items gives a prefix of the first [n] items
    that pass the filter. *)
Lemma filter_firstn_prefix {A : Type} (p : A -> bool) (n : nat) (l : list A) :
  exists rest, firstn n (List.filter p l) = (List.filter p (firstn n l) ++ rest)%list.
Proof.
  revert n. induction l as [|x l IH]; intros n.
  - exists []. destruct n; reflexivity.
  - destruct n as [|n]; [exists []; reflexivity|].
    simpl. destruct (p x) eqn:Hp.
    + destruct (IH n) as [rest E]. exists rest. simpl. rewrite E. reflexivity.
    + destruct (IH n) as [rest E].
      destruct (IH (S n)) as [rest' E']. simpl in E'.
      assert (Hpre : exists r, List.filter p (firstn (S n) l)
                               = (List.filter p (firstn n l) ++ r)%list).
      { clear. revert n. induction l as [|y l IHl]; intros n.
        - exists []. destruct n; reflexivity.
        - destruct n as [|n].
          + simpl. exists (if p y then [y] else []). destruct (p y); reflexivity.
          + destruct (IHl n) as [r Er]. exists r.
            change (firstn (S (S n)) (y :: l)) with (y :: firstn (S n) l).
            change (firstn (S n) (y :: l)) with (y :: firstn n l).
            simpl List.filter. destruct (p y); simpl; rewrite Er; reflexivity. }
      destruct Hpre as [r Er]. rewrite E', Er. rewrite <- app_assoc. eauto.
Qed.

(** X1: [applyLimit] leaves the list alone when the limit is zero,
    negative or not below the length; a positive limit keeps the first
    [limit] items, in order. *)
Theorem applyLimit_cap (items : list IYandexDiskResource) (limit : Z) :
  (limit <= 0 -> applyLimit items limit = items)
  /\ (Z.of_nat (length items) <= limit -> applyLimit items limit = items)
  /\ (0 < limit ->
        Z.of_nat (length (applyLimit items limit)) = Z.min limit (Z.of_nat (length items))
        /\ exists rest, items = (applyLimit items limit ++ rest)%list).
Proof.
  unfold applyLimit. split; [|split].
  - intros Hle. destruct (Z.leb_spec limit 0); [reflexivity | lia].
  - intros Hge. destruct (Z.leb_spec limit 0); [reflexivity|].
    apply firstn_all2. lia.
  - intros Hpos. destruct (Z.leb_spec limit 0); [lia|]. split.
    + rewrite length_firstn. lia.
    + exists (skipn (Z.to_nat limit) items). symmetry. apply firstn_skipn.
Qed.

(** X2: two caps in a row are the smaller cap. *)
Theorem applyLimit_compose (items : list IYandexDiskResource) (a b : Z) :
  0 < a -> 0 < b ->
  applyLimit (applyLimit items a) b = applyLimit items (Z.min a b).
Proof.
  intros Ha Hb. unfold applyLimit.
  destruct (Z.leb_spec a 0); [lia|]. destruct (Z.leb_spec b 0); [lia|].
  destruct (Z.leb_spec (Z.min a b) 0); [lia|].
  rewrite firstn_firstn. f_equal. lia.
Qed.

(** X3: every stage answers a sublist of what it is given: the items it
    keeps are items of the input, in the order of the input, each at most
    as often. *)
Theorem stages_answer_sublists (items : list IYandexDiskResource) :
  (forall startDate endDate, sublist (filterByModifiedTime items startDate endDate) items)
  /\ (forall event, sublist (filterByEventType items event) items)
  /\ (forall targetPath, sublist (filterByPath items targetPath) items)
  /\ (forall fileType kept, filterByFileType items fileType = Ok kept -> sublist kept items)
  /\ (forall limit, sublist (applyLimit items limit) items).
Proof.
  split; [intros; apply filter_sublist|].
  split.
  { intros event. unfold filterByEventType.
    destruct (String.eqb event "all"); [reflexivity|].
    destruct (String.eqb event "created"); [apply filter_sublist|].
    destruct (String.eqb event "updated"); [apply filter_sublist | reflexivity]. }
  split.
  { intros targetPath. rewrite filterByPath_normalized.
    destruct (String.eqb _ _); [reflexivity | apply filter_sublist]. }
  split.
  { intros fileType kept. unfold filterByFileType.
    destruct (String.eqb fileType "all"); [intros E; inversion E; reflexivity|].
    destruct (typeMap fileType); [intros E; inversion E; apply filter_sublist|].
    destruct (inObjectPrototype fileType).
    - destruct items; intros E; inversion E. reflexivity.
    - intros E; inversion E. apply filter_sublist. }
  intros limit. unfold applyLimit.
  destruct (limit <=? 0); [reflexivity | apply sublist_take].
Qed.

Lemma filter_all {A : Type} (l : list A) : List.filter (fun _ => true) l = l.
Proof. induction l as [|x l IH]; simpl; congruence. Qed.

(** Each predicate stage is a [filter] by a test on single items. *)
Lemma filterByEventType_is_filter (event : string) :
  exists q, forall items, filterByEventType items event = List.filter q items.
Proof.
  unfold filterByEventType.
  destruct (String.eqb event "all");
    [exists (fun _ => true); intros; symmetry; apply filter_all|].
  destruct (String.eqb event "created"); [exists isCreated; reflexivity|].
  destruct (String.eqb event "updated"); [exists isUpdated; reflexivity|].
  exists (fun _ => true); intros; symmetry; apply filter_all.
Qed.

Lemma filterByPath_is_filter (targetPath : string) :
  exists q, forall items, filterByPath items targetPath = List.filter q items.
Proof.
  destruct (String.eqb (normalizePath targetPath) "disk:/") eqn:E.
  - exists (fun _ => true). intros items.
    rewrite filterByPath_normalized, E. symmetry. apply filter_all.
  - exists (underPath (normalizePath targetPath)). intros items.
    rewrite filterByPath_normalized, E. reflexivity.
Qed.

(** X4: the three predicate stages can be taken in any order, and taking
    one twice changes nothing. *)
Theorem predicate_stages_commute (items : list IYandexDiskResource)
    (startDate endDate event targetPath : string) :
  filterByEventType (filterByModifiedTime items startDate endDate) event
  = filterByModifiedTime (filterByEventType items event) startDate endDate
  /\ filterByPath (filterByEventType items event) targetPath
     = filterByEventType (filterByPath items targetPath) event
  /\ filterByPath (filterByModifiedTime items startDate endDate) targetPath
     = filterByModifiedTime (filterByPath items targetPath) startDate endDate
  /\ filterByModifiedTime (filterByModifiedTime items startDate endDate) startDate endDate
     = filterByModifiedTime items startDate endDate
  /\ filterByEventType (filterByEventType items event) event
     = filterByEventType items event
  /\ filterByPath (filterByPath items targetPath) targetPath
     = filterByPath items targetPath.
Proof.
  destruct (filterByEventType_is_filter event) as [qe He].
  destruct (filterByPath_is_filter targetPath) as [qp Hp].
  unfold filterByModifiedTime. rewrite !He, !Hp.
  repeat split; auto using filter_comm, filter_idem.
Qed.

(** X5: a cap taken before a predicate stage can only lose items: what
    comes out is a prefix of what the stage followed by the cap gives. *)
Theorem cap_before_stage_is_prefix (items : list IYandexDiskResource) (limit : Z)
    (startDate endDate event targetPath : string) :
  (exists rest,
     applyLimit (filterByModifiedTime items startDate endDate) limit
     = (filterByModifiedTime (applyLimit items limit) startDate endDate ++ rest)%list)
  /\ (exists rest,
        applyLimit (filterByEventType items event) limit
        = (filterByEventType (applyLimit items limit) event ++ rest)%list)
  /\ (exists rest,
        applyLimit (filterByPath items targetPath) limit
        = (filterByPath (applyLimit items limit) targetPath ++ rest)%list).
Proof.
  assert (Hq : forall q : IYandexDiskResource -> bool, exists rest,
             applyLimit (List.filter q items) limit
             = (List.filter q (applyLimit items limit) ++ rest)%list).
  { intros q. unfold applyLimit. destruct (limit <=? 0).
    - exists []. symmetry. apply app_nil_r.
    - apply filter_firstn_prefix. }
  destruct (filterByEventType_is_filter event) as [qe He].
  destruct (filterByPath_is_filter targetPath) as [qp Hp].
  unfold filterByModifiedTime. rewrite !He, !Hp. auto.
Qed.

(** X6: two windows that meet, [(a, b]] and [(b, c]], never keep the same
    item, and with [a <= b <= c] they keep between them exactly the items
    of [(a, c]]. *)
Theorem windows_that_meet (items : list IYandexDiskResource) (a b c : string)
    (item : IYandexDiskResource) :
  ~ (In item (filterByModifiedTime items a b) /\ In item (filterByModifiedTime items b c))
  /\ (forall ta tb tc,
        getTime a = Some ta -> getTime b = Some tb -> getTime c = Some tc ->
        ta <= tb <= tc ->
        (In item (filterByModifiedTime items a c) <->
         In item (filterByModifiedTime items a b)
         \/ In item (filterByModifiedTime items b c))).
Proof.
  unfold filterByModifiedTime. rewrite !filter_In. unfold inWindow. split.
  - intros [[_ H1] [_ H2]].
    destruct (getTime (modified item)) as [m|]; [|discriminate].
    destruct (getTime a) as [ta|]; [|discriminate].
    destruct (getTime b) as [tb|]; [|discriminate].
    destruct (getTime c) as [tc|]; [|discriminate].
    apply andb_true_iff in H1 as [_ H1]. apply andb_true_iff in H2 as [H2 _].
    apply Z.leb_le in H1. apply Z.ltb_lt in H2. lia.
  - intros ta tb tc Ha Hb Hc Hord. rewrite !filter_In, Ha, Hb, Hc.
    destruct (getTime (modified item)) as [m|];
      [|split; [intros [_ ?] | intros [[_ ?]|[_ ?]]]; discriminate].
    rewrite !andb_true_iff, !Z.ltb_lt, !Z.leb_le.
    destruct (Z.le_gt_cases m tb); intuition lia.
Qed.

Lemma window_without_room (items : list IYandexDiskResource) (startDate endDate : string) :
  (forall ts te, getTime startDate = Some ts -> getTime endDate = Some te -> te <= ts) ->
  filterByModifiedTime items startDate endDate = [].
Proof.
  intros Hle. unfold filterByModifiedTime.
  induction items as [|item items IH]; [reflexivity|].
  simpl. rewrite IH. unfold inWindow.
  destruct (getTime (modified item)) as [m|]; [|reflexivity].
  destruct (getTime startDate) as [ts|]; [|reflexivity].
  destruct (getTime endDate) as [te|]; [|reflexivity].
  specialize (Hle ts te eq_refl eq_refl).
  destruct (Z.ltb_spec ts m); [|reflexivity].
  destruct (Z.leb_spec m te); [lia | reflexivity].
Qed.

(** X7: a window that does not end after its start keeps nothing; so does
    a window one of whose ends is not a date. *)
Theorem empty_window (items : list IYandexDiskResource) (startDate endDate : string) :
  (forall ts te, getTime startDate = Some ts -> getTime endDate = Some te -> te <= ts) ->
  filterByModifiedTime items startDate endDate = [].
Proof. apply window_without_room. Qed.

Lemma startsWith_both (p q m : string) :
  startsWith p m = true -> startsWith q m = true ->
  startsWith p q || startsWith q p = true.
Proof.
  revert q m. induction p as [|x p IH]; intros q m Hp Hq.
  - destruct q; reflexivity.
  - destruct q as [|y q]; [reflexivity|].
    destruct m as [|z m]; [discriminate Hp|].
    cbn [startsWith] in *.
    destruct (Ascii.eqb_spec x z) as [->|]; [|discriminate Hp].
    destruct (Ascii.eqb_spec y z) as [->|]; [|discriminate Hq].
    rewrite Ascii.eqb_refl. eauto.
Qed.

(** Two lists of prefixes that match the same item have two prefixes of
    which one starts with the other. *)
Lemma matchesPatterns_both (ps qs : list string) (item : IYandexDiskResource) :
  matchesPatterns ps item = true -> matchesPatterns qs item = true ->
  existsb (fun p => existsb (fun q => startsWith p q || startsWith q p) qs) ps = true.
Proof.
  unfold matchesPatterns. rewrite !existsb_exists.
  intros (p & Hp & Hsp) (q & Hq & Hsq). exists p. split; [exact Hp|].
  apply existsb_exists. exists q. split; [exact Hq|].
  eapply startsWith_both; eassumption.
Qed.

Lemma filterByFileType_category (items : list IYandexDiskResource)
    (category : string) (patterns : list string) :
  typeMap category = Some patterns ->
  filterByFileType items category = Ok (List.filter (matchesPatterns patterns) items).
Proof.
  intros Hm. unfold filterByFileType. rewrite Hm.
  destruct (String.eqb_spec category "all") as [->|]; [discriminate Hm | reflexivity].
Qed.

(** X8: the five categories exclude each other: no item is kept under two
    of them. *)
Theorem categories_exclusive (items items' : list IYandexDiskResource)
    (category category' : string) (patterns patterns' : list string)
    (kept kept' : list IYandexDiskResource) (item : IYandexDiskResource) :
  typeMap category = Some patterns -> typeMap category' = Some patterns' ->
  category <> category' ->
  filterByFileType items category = Ok kept ->
  filterByFileType items' category' = Ok kept' ->
  In item kept -> ~ In item kept'.
Proof.
  intros Hm Hm' Hne Hk Hk' Hin Hin'.
  destruct (typeMap_Some _ _ Hm) as [Hfive _].
  destruct (typeMap_Some _ _ Hm') as [Hfive' _].
  rewrite (filterByFileType_category _ _ _ Hm) in Hk.
  rewrite (filterByFileType_category _ _ _ Hm') in Hk'.
  inversion Hk; inversion Hk'; subst kept kept'.
  apply filter_In in Hin as [_ Hp]. apply filter_In in Hin' as [_ Hp'].
  pose proof (matchesPatterns_both _ _ _ Hp Hp') as Hboth.
  simpl in Hfive, Hfive'.
  destruct Hfive as [<-|[<-|[<-|[<-|[<-|[]]]]]];
    destruct Hfive' as [<-|[<-|[<-|[<-|[<-|[]]]]]];
    try congruence;
    inversion Hm; inversion Hm'; subst patterns patterns'; discriminate Hboth.
Qed.

End FilterLaws.

(** ** Laws of the poll cycle *)

Section PollLaws.
Import Js Types GenericFunctions Trigger Runs.
Context `{JsDate}.
Variable FILE_TYPE_TO_MEDIA_TYPE : string -> option string.

#[local] Abbreviation poll := (poll FILE_TYPE_TO_MEDIA_TYPE).
#[local] Abbreviation filteredSet := (filteredSet FILE_TYPE_TO_MEDIA_TYPE).
#[local] Abbreviation runCycles := (runCycles FILE_TYPE_TO_MEDIA_TYPE).
#[local] Abbreviation recentOptionsOf := (recentOptionsOf FILE_TYPE_TO_MEDIA_TYPE).

Lemma filterByFileType_kept (items kept : list IYandexDiskResource)
    (fileType : string) (item : IYandexDiskResource) :
  filterByFileType items fileType = Ok kept -> In item kept ->
  In item items
  /\ (fileType = "all"
      \/ exists patterns, typeMap fileType = Some patterns
                          /\ matchesPatterns patterns item = true).
Proof.
  unfold filterByFileType.
  destruct (String.eqb_spec fileType "all") as [->|_];
    [intros E Hin; inversion E; subst; auto|].
  destruct (typeMap fileType) as [patterns|].
  - intros E Hin; inversion E; subst. apply filter_In in Hin as [Hin Hm]. eauto.
  - destruct (inObjectPrototype fileType).
    + destruct items; intros E Hin; inversion E; subst; destruct Hin.
    + intros E Hin; inversion E; subst. apply filter_In in Hin as [_ Hm]. discriminate Hm.
Qed.

Lemma applyLimit_In (items : list IYandexDiskResource) (limit : Z)
    (item : IYandexDiskResource) :
  In item (applyLimit items limit) -> In item items.
Proof.
  unfold applyLimit. destruct (limit <=? 0); [trivial|].
  intros Hin. rewrite <- (firstn_skipn (Z.to_nat limit) items).
  apply in_or_app. left. exact Hin.
Qed.

Lemma applyLimit_length (items : list IYandexDiskResource) (limit : Z) :
  0 < limit -> Z.of_nat (length (applyLimit items limit)) <= limit.
Proof.
  intros Hpos. unfold applyLimit. destruct (Z.leb_spec limit 0); [lia|].
  rewrite length_firstn. lia.
Qed.

Lemma applyLimit_sublist (items : list IYandexDiskResource) (limit : Z) :
  sublist (applyLimit items limit) items.
Proof.
  unfold applyLimit. destruct (limit <=? 0); [reflexivity | apply sublist_take].
Qed.

Lemma filterByFileType_sublist (items kept : list IYandexDiskResource) (fileType : string) :
  filterByFileType items fileType = Ok kept -> sublist kept items.
Proof.
  unfold filterByFileType.
  destruct (String.eqb fileType "all"); [intros E; inversion E; reflexivity|].
  destruct (typeMap fileType); [intros E; inversion E; apply filter_sublist|].
  destruct (inObjectPrototype fileType).
  - destruct items; intros E; inversion E. reflexivity.
  - intros E; inversion E. apply filter_sublist.
Qed.

(** The steps of a [pipeline] that completes. *)
Lemma pipeline_inv (this : IPollFunctions) (parameters : Parameters)
    (startDate endDate : string) (candidates out : list IYandexDiskResource) :
  pipeline this parameters startDate endDate candidates = Ok out ->
  exists scoped typed,
    ((location parameters = "specificPath"
      /\ exists path, param_path this = Ok path
           /\ scoped = filterByPath
                         (filterByEventType
                            (filterByModifiedTime candidates startDate endDate)
                            (event parameters)) path)
     \/ (location parameters <> "specificPath"
         /\ scoped = filterByEventType
                       (filterByModifiedTime candidates startDate endDate)
                       (event parameters)))
    /\ filterByFileType scoped (fileTypeOf (options parameters)) = Ok typed
    /\ out = applyLimit typed (userLimitOf (options parameters)).
Proof.
  unfold pipeline, LOCATIONS_SPECIFIC_PATH, mbind, mret, result_bind, result_ret.
  destruct (String.eqb_spec (location parameters) "specificPath") as [Hl|Hl].
  - destruct (param_path this) as [path|e]; [|discriminate].
    cbv beta iota.
    match goal with
    | |- context [filterByFileType ?l ?f] =>
        destruct (filterByFileType l f) as [typed|e] eqn:Ht; [|discriminate]
    end.
    intros E; inversion E. do 2 eexists. split; [left; eauto|]. eauto.
  - match goal with
    | |- context [filterByFileType ?l ?f] =>
        destruct (filterByFileType l f) as [typed|e] eqn:Ht; [|discriminate]
    end.
    intros E; inversion E. do 2 eexists. split; [right; eauto|]. eauto.
Qed.

(** X9: what the filters of an automated cycle let through: every item
    of the outcome was among the candidates, was modified in the window,
    passes the event test, lies under the configured path when the
    location is a specific path, and has a MIME type of the configured
    category; the outcome is a sublist of the candidates and, for a
    positive limit, no longer than the limit. *)
Theorem pipeline_sound (this : IPollFunctions) (parameters : Parameters)
    (startDate endDate : string) (candidates out : list IYandexDiskResource) :
  pipeline this parameters startDate endDate candidates = Ok out ->
  sublist out candidates
  /\ (0 < userLimitOf (options parameters) ->
        Z.of_nat (length out) <= userLimitOf (options parameters))
  /\ (forall item, In item out ->
        In item (filterByModifiedTime candidates startDate endDate)
        /\ In item (filterByEventType candidates (event parameters))
        /\ (location parameters = "specificPath" ->
              exists path, param_path this = Ok path
                           /\ In item (filterByPath candidates path))
        /\ (fileTypeOf (options parameters) = "all"
            \/ exists patterns,
                 typeMap (fileTypeOf (options parameters)) = Some patterns
                 /\ matchesPatterns patterns item = true)).
Proof.
  intros Hp. apply pipeline_inv in Hp as (scoped & typed & Hscope & Ht & ->).
  destruct (filterByEventType_is_filter (event parameters)) as [qe Hqe].
  assert (Hsub : sublist scoped candidates).
  { destruct Hscope as [(_ & path & _ & ->)|(_ & ->)].
    - destruct (filterByPath_is_filter path) as [qp Hqp]. rewrite Hqp, Hqe.
      do 2 (etransitivity; [apply filter_sublist|]). apply filter_sublist.
    - rewrite Hqe. etransitivity; apply filter_sublist. }
  split.
  { etransitivity; [apply applyLimit_sublist|].
    etransitivity; [eapply filterByFileType_sublist; eassumption | exact Hsub]. }
  split; [apply applyLimit_length|].
  intros item Hin. apply applyLimit_In in Hin.
  destruct (filterByFileType_kept _ _ _ _ Ht Hin) as [Hs Hty].
  assert (Hte : In item (filterByModifiedTime candidates startDate endDate)
                /\ In item (filterByEventType candidates (event parameters))
                /\ (location parameters = "specificPath" ->
                      exists path, param_path this = Ok path
                                   /\ In item (filterByPath candidates path))).
  { destruct Hscope as [(Hl & path & Hpp & ->)|(Hl & ->)].
    - destruct (filterByPath_is_filter path) as [qp Hqp].
      rewrite Hqp, Hqe in Hs. unfold filterByModifiedTime in *.
      rewrite !filter_In in Hs. destruct Hs as [[[Hc Hw] He] Hq].
      split; [apply filter_In; auto|].
      split; [rewrite Hqe; apply filter_In; auto|].
      intros _. exists path. split; [exact Hpp|].
      rewrite Hqp. apply filter_In. auto.
    - rewrite Hqe in Hs. unfold filterByModifiedTime in *.
      rewrite !filter_In in Hs. destruct Hs as [[Hc Hw] He].
      split; [apply filter_In; auto|].
      split; [rewrite Hqe; apply filter_In; auto|].
      intros Hl'. contradiction. }
  tauto.
Qed.

(** X10: a manual invocation asks for one recent item and hands back
    all the items of the answer as they are, whatever the event, location,
    path and file type parameters, the stored checkpoint and the clock; an
    answer without items is a [NodeApiError]. *)
Theorem manual_preview_unfiltered (this : IPollFunctions)
    (webhookData : gmap string string) (parameters : Parameters)
    (credentials : Credentials) (api : Api) (response : Response) :
  isManual this = true ->
  readParameters this = Ok parameters ->
  getCredentials this = Ok credentials ->
  initializeYandexDiskApi (sdk this) credentials = Ok api ->
  recent api {| recent_limit := 1; recent_media_type := None |} = Ok response ->
  (itemsOf response <> [] ->
     poll this webhookData
     = (webhookData, Ok (Some [returnJsonArray (itemsOf response)])))
  /\ (itemsOf response = [] ->
        poll this webhookData
        = (webhookData,
           Throw (NodeApiError "No recent files found in Yandex Disk"
                    (Some "Upload some files to your Yandex Disk to test this trigger"))))
  /\ (forall this' webhookData' parameters',
        isManual this' = true ->
        readParameters this' = Ok parameters' ->
        getCredentials this' = Ok credentials ->
        sdk this' = sdk this ->
        snd (poll this' webhookData') = snd (poll this webhookData)).
Proof.
  intros Hm Hp Hc Hi Hr.
  pose proof (poll_manual FILE_TYPE_TO_MEDIA_TYPE this webhookData parameters
                credentials api Hm Hp Hc Hi) as E.
  rewrite Hr in E. split; [|split].
  - intros Hne. rewrite E. destruct (itemsOf response); [congruence | reflexivity].
  - intros He. rewrite E, He. reflexivity.
  - intros this' webhookData' parameters' Hm' Hp' Hc' Hs.
    rewrite <- Hs in Hi.
    rewrite (poll_manual FILE_TYPE_TO_MEDIA_TYPE this' webhookData' parameters'
               credentials api Hm' Hp' Hc' Hi), E, Hr.
    reflexivity.
Qed.

(** X11: the first automated cycle, with no checkpoint stored (or an empty
    one), looks at the empty window from now to now: when it returns, it
    returns [null] and has stored the checkpoint. *)
Theorem first_cycle_returns_null (this : IPollFunctions)
    (webhookData webhookData' : gmap string string)
    (r : option (list (list INodeExecutionData))) :
  isManual this = false ->
  webhookData !! "lastTimeChecked" = None \/ webhookData !! "lastTimeChecked" = Some "" ->
  poll this webhookData = (webhookData', Ok r) ->
  r = None /\ webhookData' !! "lastTimeChecked" = Some (moment_utc_format this).
Proof.
  intros Hm Hfirst Hp.
  apply (poll_automated_returns _ _ _ _ _ Hm) in Hp
    as (parameters & credentials & api & items & _ & _ & _ & Hf & -> & ->).
  split; [|apply lookup_insert_eq].
  assert (Hstart : orElse (webhookData !! "lastTimeChecked") (moment_utc_format this)
                   = moment_utc_format this)
    by (destruct Hfirst as [-> | ->]; reflexivity).
  unfold Trigger.filteredSet, mbind, result_bind in Hf. rewrite Hstart in Hf.
  destruct (recent api _) as [response|e]; [|discriminate Hf].
  apply pipeline_inv in Hf as (scoped & typed & Hscope & Ht & ->).
  assert (Hnone : filterByModifiedTime (itemsOf response) (moment_utc_format this)
                    (moment_utc_format this) = []).
  { apply window_without_room. intros ts te Hs He. rewrite Hs in He.
    injection He as <-. lia. }
  assert (Hs : scoped = []).
  { destruct (filterByEventType_is_filter (event parameters)) as [qe Hqe].
    destruct Hscope as [(_ & path & _ & ->)|(_ & ->)]; rewrite Hnone, Hqe.
    - destruct (filterByPath_is_filter path) as [qp Hqp]. rewrite Hqp. reflexivity.
    - reflexivity. }
  subst scoped. apply filterByFileType_sublist in Ht. apply sublist_nil_r in Ht.
  subst typed. unfold applyLimit. rewrite firstn_nil.
  destruct (_ <=? 0); reflexivity.
Qed.

(** X12: with credentials that hold no token, or an empty one, a cycle
    of either mode throws the [NodeApiError] of the outermost [catch] and
    leaves the static data as they were; so does a cycle whose credentials
    cannot be read, unless what that throws is a structured error
    already. *)
Theorem missing_token_aborts (this : IPollFunctions)
    (webhookData : gmap string string) (parameters : Parameters) :
  readParameters this = Ok parameters ->
  (forall credentials,
     getCredentials this = Ok credentials ->
     oauthToken credentials = None \/ oauthToken credentials = Some "" ->
     poll this webhookData
     = (webhookData,
        Throw (NodeApiError "An error occurred in Yandex 360 Disk Trigger" None)))
  /\ (forall e,
        getCredentials this = Throw e ->
        poll this webhookData = (webhookData, Throw (outerCatch e))).
Proof.
  intros Hp. split.
  - intros credentials Hc Htok.
    rewrite (poll_no_api FILE_TYPE_TO_MEDIA_TYPE this webhookData parameters
               (PlainError "OAuth token not found in credentials") Hp); [reflexivity|].
    right. exists credentials. split; [exact Hc|].
    unfold initializeYandexDiskApi. destruct Htok as [-> | ->]; reflexivity.
  - intros e Hc. apply (poll_no_api _ _ _ parameters); auto.
Qed.

(** A cycle leaves the static data as they were or stores its clock. *)
Lemma poll_step (this : IPollFunctions) (webhookData : gmap string string) :
  fst (poll this webhookData) = webhookData
  \/ (isManual this = false
      /\ fst (poll this webhookData)
         = <["lastTimeChecked" := moment_utc_format this]> webhookData).
Proof.
  destruct (poll_cycle FILE_TYPE_TO_MEDIA_TYPE this webhookData); auto.
Qed.

(** X13: over any series of cycles, the keys of the static data other than
    [lastTimeChecked] keep their values, and [lastTimeChecked] ends as it
    began or as the clock of one of the automated cycles of the series. *)
Theorem run_touches_only_checkpoint (cycles : list IPollFunctions)
    (webhookData : gmap string string) :
  (forall key, key <> "lastTimeChecked" ->
     runCycles cycles webhookData !! key = webhookData !! key)
  /\ (runCycles cycles webhookData !! "lastTimeChecked" = webhookData !! "lastTimeChecked"
      \/ exists this, In this cycles /\ isManual this = false
           /\ runCycles cycles webhookData !! "lastTimeChecked"
              = Some (moment_utc_format this)).
Proof.
  revert webhookData. induction cycles as [|this cycles IH]; intros webhookData.
  - split; [reflexivity | left; reflexivity].
  - cbn [Trigger.runCycles].
    destruct (IH (fst (poll this webhookData))) as [Hkeys Hcp].
    destruct (poll_step this webhookData) as [E|[Hm E]]; rewrite E in *.
    + split; [exact Hkeys|].
      destruct Hcp as [Hcp|(c & Hin & Hc & Hcp)]; [left; exact Hcp|].
      right. exists c. split; [right; exact Hin | auto].
    + split.
      * intros key Hk. rewrite (Hkeys key Hk). apply lookup_insert_ne. congruence.
      * right. destruct Hcp as [Hcp|(c & Hin & Hc & Hcp)].
        -- exists this. split; [left; reflexivity|]. split; [exact Hm|].
           rewrite Hcp. apply lookup_insert_eq.
        -- exists c. split; [right; exact Hin | auto].
Qed.

Lemma clocksAscend_weaken (t t' : Z) (cycles : list IPollFunctions) :
  t' <= t -> clocksAscend t cycles -> clocksAscend t' cycles.
Proof.
  intros Hle. destruct cycles as [|this rest]; [trivial|].
  intros (now & Hn & Ht & Hrest). exists now. repeat split; trivial. lia.
Qed.

Lemma runCycles_app (before after : list IPollFunctions) (webhookData : gmap string string) :
  runCycles (before ++ after)%list webhookData
  = runCycles after (runCycles before webhookData).
Proof.
  revert webhookData. induction before as [|this before IH]; intros webhookData;
    [reflexivity|].
  cbn [Trigger.runCycles app]. apply IH.
Qed.

Lemma clocksAscend_app (t : Z) (before after : list IPollFunctions) :
  clocksAscend t (before ++ after)%list ->
  clocksAscend t before /\ clocksAscend t after.
Proof.
  revert t. induction before as [|this before IH]; intros t; [cbn; auto|].
  intros (now & Hn & Ht & Hrest). apply IH in Hrest as [Hb Ha]. split.
  - exists now. auto.
  - apply (clocksAscend_weaken now); assumption.
Qed.

Lemma run_checkpoint_not_before (cycles : list IPollFunctions)
    (webhookData : gmap string string) (t0 : Z) :
  checkpointTime webhookData = Some t0 ->
  clocksAscend t0 cycles ->
  exists t, checkpointTime (runCycles cycles webhookData) = Some t /\ t0 <= t
            /\ forall more, clocksAscend t0 (cycles ++ more)%list -> clocksAscend t more.
Proof.
  revert webhookData t0. induction cycles as [|this cycles IH]; intros webhookData t0 H0 Hasc.
  - exists t0. split; [exact H0|]. split; [lia | trivial].
  - destruct Hasc as (now & Hn & Ht & Hrest). cbn [Trigger.runCycles].
    destruct (poll_step this webhookData) as [E|[Hm E]]; rewrite E.
    + destruct (IH webhookData t0 H0 (clocksAscend_weaken _ _ _ Ht Hrest))
        as (t & Hc & Hle & Hmore).
      exists t. split; [exact Hc|]. split; [exact Hle|].
      intros more (now' & Hn' & Ht' & Hrest'). apply Hmore.
      apply (clocksAscend_weaken now'); assumption.
    + assert (H1 : checkpointTime
                     (<["lastTimeChecked" := moment_utc_format this]> webhookData)
                   = Some now)
        by (unfold checkpointTime; rewrite lookup_insert_eq; exact Hn).
      destruct (IH _ now H1 Hrest) as (t & Hc & Hle & Hmore).
      exists t. split; [exact Hc|]. split; [lia|].
      intros more (now' & Hn' & Ht' & Hrest'). apply Hmore.
      rewrite Hn in Hn'. injection Hn' as <-. exact Hrest'.
Qed.

(** X14: when the clock does not run backwards over a series of cycles
    that starts at or after the stored checkpoint, the checkpoint never
    moves back: after any part of the series it is a date, not before the
    checkpoint at the start, and not after the checkpoint at the end. *)
Theorem run_checkpoint_monotone (before after : list IPollFunctions)
    (webhookData : gmap string string) (t0 : Z) :
  checkpointTime webhookData = Some t0 ->
  clocksAscend t0 (before ++ after)%list ->
  exists t1 t2,
    checkpointTime (runCycles before webhookData) = Some t1
    /\ checkpointTime (runCycles (before ++ after)%list webhookData) = Some t2
    /\ t0 <= t1 <= t2.
Proof.
  intros H0 Hasc. pose proof (clocksAscend_app _ _ _ Hasc) as [Hb _].
  destruct (run_checkpoint_not_before before webhookData t0 H0 Hb) as (t1 & H1 & Hle1 & Hmore).
  destruct (run_checkpoint_not_before after _ t1 H1 (Hmore _ Hasc)) as (t2 & H2 & Hle2 & _).
  exists t1, t2. rewrite runCycles_app. auto.
Qed.

End PollLaws.

(** ** Operation links *)

Section OperationLinks.
Import Js Operations.

Lemma includes_unfold (needle s : string) :
  includes needle s
  = (startsWith needle s
     || match s with
        | EmptyString => false
        | String _ s' => includes needle s'
        end).
Proof. destruct s; reflexivity. Qed.

Lemma includes_spec (needle s : string) :
  includes needle s = true <-> exists a b, s = a ++ needle ++ b.
Proof.
  split.
  - induction s as [|c s IH]; rewrite includes_unfold, orb_true_iff.
    + intros [Hs|Hs]; [|discriminate]. apply startsWith_spec in Hs as [b ->].
      exists "", b. reflexivity.
    + intros [Hs|Hs].
      * apply startsWith_spec in Hs as [b ->]. exists "", b. reflexivity.
      * destruct (IH Hs) as (a & b & ->). exists (String c a), b. reflexivity.
  - intros (a & b & ->). induction a as [|c a IH]; rewrite includes_unfold.
    + apply orb_true_iff. left. apply startsWith_spec. exists b. reflexivity.
    + apply orb_true_iff. right. exact IH.
Qed.

Lemma afterPrefix_spec (p s r : string) : afterPrefix p s = Some r <-> s = p ++ r.
Proof.
  revert s. induction p as [|a p IH]; intros s; cbn [afterPrefix].
  - simpl. split; congruence.
  - destruct s as [|b s]; [split; [discriminate | intros E; simpl in E; discriminate]|].
    destruct (Ascii.eqb_spec a b) as [->|Hab].
    + rewrite IH. simpl. split; congruence.
    + split; [discriminate | intros E; simpl in E; congruence].
Qed.

Lemma afterPrefix_None (p s : string) : startsWith p s = false -> afterPrefix p s = None.
Proof.
  intros Hs. destruct (afterPrefix p s) as [r|] eqn:E; [|reflexivity].
  apply afterPrefix_spec in E. subst s.
  assert (startsWith p (p ++ r) = true) by (apply startsWith_spec; eauto). congruence.
Qed.

(** What [untilQuestionMark] takes has no question mark, and what it
    leaves is empty or starts with one. *)
Lemma untilQuestionMark_split (s : string) :
  includes "?" (untilQuestionMark s) = false
  /\ exists rest, s = untilQuestionMark s ++ rest
                  /\ (rest = "" \/ exists q, rest = String "?" q).
Proof.
  induction s as [|c s (IH1 & rest & IH2 & IH3)]; cbn [untilQuestionMark].
  - split; [reflexivity|]. exists "". auto.
  - destruct (Ascii.eqb_spec c "?") as [->|Hc].
    + split; [reflexivity|]. exists (String "?" s). split; [reflexivity|]. right. eauto.
    + split.
      * rewrite includes_unfold. cbn [startsWith].
        destruct (Ascii.eqb_spec "?" c) as [E|_]; [congruence|]. exact IH1.
      * exists rest. split; [simpl; congruence | exact IH3].
Qed.

Lemma untilQuestionMark_app (id tail : string) :
  includes "?" id = false ->
  tail = "" \/ (exists q, tail = String "?" q) ->
  untilQuestionMark (id ++ tail) = id.
Proof.
  intros Hid Htail. induction id as [|c id IH].
  - destruct Htail as [->|[q ->]]; reflexivity.
  - rewrite includes_unfold in Hid. cbn [startsWith] in Hid.
    apply orb_false_iff in Hid as [Hc Hid].
    simpl. destruct (Ascii.eqb_spec c "?") as [->|_]; [discriminate Hc|].
    rewrite (IH Hid). reflexivity.
Qed.

(** What [matchOperations] captures is in the string, right after the
    marker and up to the first question mark. *)
Lemma matchOperations_sound (s id : string) :
  matchOperations s = Some id ->
  id <> "" /\ includes "?" id = false
  /\ exists a b, s = a ++ "/operations/" ++ id ++ b
                 /\ (b = "" \/ exists q, b = String "?" q).
Proof.
  assert (Hhere : forall s, operationsGroupHere s = Some id ->
            id <> "" /\ includes "?" id = false
            /\ exists b, s = "/operations/" ++ id ++ b
                         /\ (b = "" \/ exists q, b = String "?" q)).
  { clear s. intros s. unfold operationsGroupHere.
    destruct (afterPrefix "/operations/" s) as [rest|] eqn:Ea; [|discriminate].
    apply afterPrefix_spec in Ea. subst s.
    destruct (untilQuestionMark_split rest) as (Hno & b & Hrest & Hb).
    destruct (untilQuestionMark rest) as [|c u] eqn:Eu; [discriminate|].
    intros E; injection E as <-. split; [discriminate|]. split; [exact Hno|].
    exists b. split; [|exact Hb]. rewrite Hrest at 1. reflexivity. }
  induction s as [|c s IH]; cbn [matchOperations].
  - destruct (operationsGroupHere "") eqn:E; [|discriminate].
    intros E'; injection E' as ->. destruct (Hhere _ E) as (H1 & H2 & b & Hs & Hb).
    split; [exact H1|]. split; [exact H2|]. exists "", b. auto.
  - destruct (operationsGroupHere (String c s)) eqn:E.
    + intros E'; injection E' as ->. destruct (Hhere _ E) as (H1 & H2 & b & Hs & Hb).
      split; [exact H1|]. split; [exact H2|]. exists "", b. auto.
    + intros Hm. destruct (IH Hm) as (H1 & H2 & a & b & -> & Hb).
      split; [exact H1|]. split; [exact H2|]. exists (String c a), b. auto.
Qed.

Lemma startsWith_app_long (m x y : string) :
  startsWith m (x ++ y) = true -> (String.length m <= String.length x)%nat ->
  startsWith m x = true.
Proof.
  revert x. induction m as [|a m IH]; intros x Hs Hlen; [reflexivity|].
  destruct x as [|b x]; [simpl in Hlen; lia|].
  cbn [startsWith String.append] in *.
  destruct (Ascii.eqb a b); [|discriminate Hs].
  apply IH; [exact Hs | simpl in Hlen; lia].
Qed.

Lemma length_append (a b : string) :
  String.length (a ++ b) = (String.length a + String.length b)%nat.
Proof. induction a as [|c a IH]; simpl; congruence. Qed.

(** The id of a link whose marker does not occur earlier. *)
Lemma matchOperations_extracts (base id tail : string) :
  includes "/operations/" (base ++ "/operations") = false ->
  id <> "" -> includes "?" id = false ->
  tail = "" \/ (exists q, tail = String "?" q) ->
  matchOperations (base ++ "/operations/" ++ id ++ tail) = Some id.
Proof.
  intros Hbase Hid Hq Htail. induction base as [|c base IH].
  - destruct id as [|d id]; [congruence|].
    assert (Eh : operationsGroupHere ("" ++ "/operations/" ++ String d id ++ tail)
                 = Some (String d id)).
    { unfold operationsGroupHere.
      assert (Ea : afterPrefix "/operations/" ("/operations/" ++ String d id ++ tail)
                   = Some (String d id ++ tail)) by (apply afterPrefix_spec; reflexivity).
      change ("" ++ "/operations/" ++ String d id ++ tail)
        with ("/operations/" ++ String d id ++ tail).
      rewrite Ea, (untilQuestionMark_app _ _ Hq Htail). reflexivity. }
    destruct ("" ++ "/operations/" ++ String d id ++ tail) eqn:Es;
      cbn [matchOperations]; rewrite Eh; reflexivity.
  - rewrite includes_unfold in Hbase. apply orb_false_iff in Hbase as [Hhere Hrest].
    change ((String c base ++ "/operations") ) with (String c (base ++ "/operations")) in *.
    change (String c base ++ "/operations/" ++ id ++ tail)
      with (String c (base ++ "/operations/" ++ id ++ tail)).
    cbn [matchOperations].
    assert (En : operationsGroupHere (String c (base ++ "/operations/" ++ id ++ tail))
                 = None).
    { unfold operationsGroupHere. rewrite afterPrefix_None; [reflexivity|].
      apply not_true_is_false. intros Hs.
      assert (Hs' : startsWith "/operations/"
                      (String c (base ++ "/operations") ++ ("/" ++ id ++ tail)) = true).
      { replace (String c (base ++ "/operations") ++ "/" ++ id ++ tail)
          with (String c (base ++ "/operations/" ++ id ++ tail)); [exact Hs|].
        simpl. f_equal. rewrite append_assoc. reflexivity. }
      apply startsWith_app_long in Hs'; [congruence|].
      simpl. rewrite length_append. simpl. lia. }
    rewrite En. apply IH. exact Hrest.
Qed.

(** X15: a result is an operation link exactly when its [href] holds the
    marker [/operations/]; nothing asks for an id after it. *)
Theorem isOperationLink_spec (result : option Link) :
  isOperationLink result = true <->
  exists r a b, result = Some r /\ href r = Some (a ++ "/operations/" ++ b).
Proof.
  unfold isOperationLink. split.
  - destruct result as [r|]; [|discriminate].
    destruct (href r) as [h|] eqn:Eh; [|discriminate].
    intros Ht. apply andb_true_iff in Ht as [_ Hi].
    apply includes_spec in Hi as (a & b & ->). exists r, a, b. auto.
  - intros (r & a & b & -> & ->). apply andb_true_iff. split.
    + unfold truthy. destruct a; reflexivity.
    + apply includes_spec. eauto.
Qed.

(** X16: the id of the operation of a link: when the marker does not
    occur earlier in the address, [getOperationId] answers what stands
    after it, without the query string. *)
Theorem getOperationId_extracts (base id tail : string) (m : option string) :
  includes "/operations/" (base ++ "/operations") = false ->
  id <> "" -> includes "?" id = false ->
  tail = "" \/ (exists q, tail = String "?" q) ->
  getOperationId (Some {| href := Some (base ++ "/operations/" ++ id ++ tail);
                          method := m |}) = id
  /\ isOperationLink (Some {| href := Some (base ++ "/operations/" ++ id ++ tail);
                             method := m |}) = true.
Proof.
  intros Hbase Hid Hq Htail. unfold getOperationId, isOperationLink. cbn [href].
  rewrite (matchOperations_extracts _ _ _ Hbase Hid Hq Htail).
  assert (Ht : truthy (base ++ "/operations/" ++ id ++ tail) = true)
    by (unfold truthy; destruct base; reflexivity).
  rewrite Ht. split; [reflexivity|]. apply includes_spec. eauto.
Qed.

(** X17: an id that [getOperationId] answers is never made up: when it
    is not empty, the result is an operation link, the id has no question
    mark, and it stands in the address right after the marker, up to the
    end or to a question mark.  A result that is no operation link has the
    empty id. *)
Theorem getOperationId_sound (result : option Link) :
  (getOperationId result <> "" ->
     isOperationLink result = true
     /\ includes "?" (getOperationId result) = false
     /\ exists r a b,
          result = Some r
          /\ href r = Some (a ++ "/operations/" ++ getOperationId result ++ b)
          /\ (b = "" \/ exists q, b = String "?" q))
  /\ (isOperationLink result = false -> getOperationId result = "").
Proof.
  assert (Hmain : getOperationId result <> "" ->
     isOperationLink result = true
     /\ includes "?" (getOperationId result) = false
     /\ exists r a b,
          result = Some r
          /\ href r = Some (a ++ "/operations/" ++ getOperationId result ++ b)
          /\ (b = "" \/ exists q, b = String "?" q)).
  { unfold getOperationId, isOperationLink.
    destruct result as [r|]; [|congruence].
    destruct (href r) as [h|] eqn:Eh; [|congruence].
    destruct (truthy h) eqn:Et; [|congruence].
    destruct (matchOperations h) as [id|] eqn:Em; [|congruence].
    intros _. apply matchOperations_sound in Em as (H1 & H2 & a & b & -> & Hb).
    split; [apply includes_spec; eauto|]. split; [exact H2|].
    exists r, a, b. auto. }
  split; [exact Hmain|].
  intros Hno. destruct (string_dec (getOperationId result) "") as [E|E]; [exact E|].
  destruct (Hmain E) as [Hyes _]. congruence.
Qed.

End OperationLinks.

(** ** Waiting for an operation *)

Section Waiting.
Import Js Operations.

(** How a wait that ends has ended. *)
Lemma waitForOperation_ends (startTime timeout : Z) (observations : list Observation)
    (out : attempt string) :
  waitForOperation startTime timeout observations = Some out ->
  (out = Returned "success"
   /\ exists o operation, In o observations /\ Date_now o - startTime < timeout
        /\ api_operation o = Returned operation /\ op_status operation = "success")
  \/ (exists o error, In o observations /\ Date_now o - startTime < timeout
        /\ api_operation o = Raised error /\ out = Raised error)
  \/ (exists o operation, In o observations /\ Date_now o - startTime < timeout
        /\ api_operation o = Returned operation /\ op_status operation = "failed"
        /\ out = Raised (Thrown (PlainError
                   ("Operation failed: " ++ JSON_stringify operation))))
  \/ (exists o, In o observations /\ timeout <= Date_now o - startTime
        /\ out = Raised (Thrown (PlainError
                   ("Operation timeout after " ++ showNumber timeout ++ "ms")))).
Proof.
  induction observations as [|o rest IH]; cbn [waitForOperation]; [discriminate|].
  destruct (Z.ltb_spec (Date_now o - startTime) timeout) as [Hin|Hout].
  - destruct (api_operation o) as [operation|error] eqn:Ea.
    + destruct (String.eqb_spec (op_status operation) "success") as [Hs|_].
      * intros E; injection E as <-. left. split; [reflexivity|].
        exists o, operation. simpl. auto.
      * destruct (String.eqb_spec (op_status operation) "failed") as [Hf|_].
        -- intros E; injection E as <-. right. right. left.
           exists o, operation. simpl. auto 6.
        -- intros E. destruct (IH E) as [(-> & o' & op' & Hi & H')
                                        |[(o' & e' & Hi & H')
                                         |[(o' & op' & Hi & H')|(o' & Hi & H')]]].
           ++ left. split; [reflexivity|]. exists o', op'. simpl. auto.
           ++ right. left. exists o', e'. simpl. auto.
           ++ right. right. left. exists o', op'. simpl. auto.
           ++ right. right. right. exists o'. simpl. auto.
    + intros E; injection E as <-. right. left. exists o, error. simpl. auto.
  - intros E; injection E as <-. right. right. right. exists o. simpl. auto.
Qed.

(** More observations do not change a wait that has ended. *)
Lemma waitForOperation_more (startTime timeout : Z) (observations more : list Observation)
    (out : attempt string) :
  waitForOperation startTime timeout observations = Some out ->
  waitForOperation startTime timeout (observations ++ more)%list = Some out.
Proof.
  induction observations as [|o rest IH]; cbn [waitForOperation app]; [discriminate|].
  destruct (Date_now o - startTime <? timeout); [|trivial].
  destruct (api_operation o) as [operation|error]; [|trivial].
  destruct (String.eqb (op_status operation) "success"); [trivial|].
  destruct (String.eqb (op_status operation) "failed"); [trivial | exact IH].
Qed.

(** Spaced observations bring the wait to an end. *)
Lemma waitForOperation_terminates (startTime timeout interval : Z) :
  0 < interval ->
  forall (observations : list Observation) (base : Z),
    paced base interval observations ->
    observations <> [] ->
    timeout <= (base - startTime) + (Z.of_nat (length observations) - 1) * interval ->
    waitForOperation startTime timeout observations <> None.
Proof.
  intros Hi. induction observations as [|o rest IH]; intros base Hp Hne Hlen;
    [congruence|].
  destruct Hp as [Hbase Hp]. cbn [waitForOperation].
  destruct (Z.ltb_spec (Date_now o - startTime) timeout) as [Hin|Hout]; [|discriminate].
  destruct (api_operation o) as [operation|error]; [|discriminate].
  destruct (String.eqb (op_status operation) "success"); [discriminate|].
  destruct (String.eqb (op_status operation) "failed"); [discriminate|].
  destruct rest as [|o' rest'].
  - simpl in Hlen. lia.
  - apply (IH (base + interval)); [exact Hp | discriminate|].
    cbn [length] in *. lia.
Qed.

(** X18: a wait answers ['success'] only when the remote API reported
    the success of the operation at a reading of the clock within the
    timeout; and what it raises is the rejection of the remote API, the
    report of a failed operation, or the timeout, which needs a reading of
    the clock at or past the timeout. *)
Theorem waitForOperation_outcomes (startTime timeout : Z)
    (observations : list Observation) (out : attempt string) :
  waitForOperation startTime timeout observations = Some out ->
  (forall s, out = Returned s ->
     s = "success"
     /\ exists o operation, In o observations /\ Date_now o - startTime < timeout
          /\ api_operation o = Returned operation /\ op_status operation = "success")
  /\ (forall error, out = Raised error ->
        (exists o, In o observations /\ Date_now o - startTime < timeout
                   /\ api_operation o = Raised error)
        \/ (exists o operation, In o observations
              /\ api_operation o = Returned operation /\ op_status operation = "failed"
              /\ error = Thrown (PlainError
                           ("Operation failed: " ++ JSON_stringify operation)))
        \/ (error = Thrown (PlainError
                      ("Operation timeout after " ++ showNumber timeout ++ "ms"))
            /\ exists o, In o observations /\ timeout <= Date_now o - startTime)).
Proof.
  intros Hw. apply waitForOperation_ends in Hw. split.
  - intros s ->.
    destruct Hw as [(E & Hex)|[(o & e & _ & _ & _ & E)
                              |[(o & op & _ & _ & _ & _ & E)|(o & _ & _ & E)]]];
      try discriminate E.
    injection E as ->. auto.
  - intros error ->.
    destruct Hw as [(E & _)|[(o & e & Hi & Ht & Ha & E)
                            |[(o & op & Hi & Ht & Ha & Hs & E)|(o & Hi & Ht & E)]]].
    + discriminate E.
    + injection E as ->. left. eauto.
    + injection E as ->. right. left. eauto 7.
    + injection E as ->. right. right. eauto.
Qed.

(** X19: a wait is over after finitely many passes: with observations
    spaced by a positive interval, it has ended by the first pass whose
    number times the interval reaches the timeout (the 31st at the latest
    for the defaults of 30 s and 1 s), and later observations do not
    change how it ended. *)
Theorem waitForOperation_bounded (startTime timeout interval : Z)
    (observations more : list Observation) :
  0 < interval ->
  paced startTime interval observations ->
  observations <> [] ->
  timeout <= (Z.of_nat (length observations) - 1) * interval ->
  exists out,
    waitForOperation startTime timeout observations = Some out
    /\ waitForOperation startTime timeout (observations ++ more)%list = Some out.
Proof.
  intros Hi Hp Hne Hlen.
  destruct (waitForOperation startTime timeout observations) as [out|] eqn:E.
  - exists out. split; [reflexivity|]. apply waitForOperation_more, E.
  - exfalso. revert E.
    apply (waitForOperation_terminates startTime timeout interval Hi observations startTime);
      trivial. lia.
Qed.

End Waiting.

(** ** Deleting a resource *)

Section Deleting.
Import Js Operations Node.

(** X20: a delete reports ['completed'] only when the remote API
    answered without an operation link, or when the wait for the operation
    saw its success within the timeout; it reports ['pending'], with the id
    of the operation, only when it was told not to wait; and then it does
    not look at the operation at all. *)
Theorem executeDelete_reports (Noun noun : string) (api : DiskApi) (path : string)
    (permanently waitForCompletion : bool) (i : nat) (d : ExecutionData) :
  executeDelete Noun noun api path permanently waitForCompletion i = Some (Returned d) ->
  exists result,
    api_remove api path permanently = Returned result
    /\ ((d = deleteCompleted path permanently i /\ isOperationLink result = false)
        \/ (d = deleteCompleted path permanently i
            /\ isOperationLink result = true /\ waitForCompletion = true
            /\ exists o operation,
                 In o (observe api (getOperationId result))
                 /\ Date_now o - startTime api < defaultTimeout
                 /\ api_operation o = Returned operation
                 /\ op_status operation = "success")
        \/ (d = deletePending (getOperationId result) path permanently i
            /\ isOperationLink result = true /\ waitForCompletion = false
            /\ forall api', api_remove api' = api_remove api ->
                 executeDelete Noun noun api' path permanently false i
                 = Some (Returned d))).
Proof.
  unfold executeDelete.
  destruct (api_remove api path permanently) as [result|error] eqn:Er; [|discriminate].
  intros E. exists result. split; [reflexivity|].
  destruct (isOperationLink result) eqn:Hl.
  - destruct waitForCompletion.
    + destruct (waitForOperation _ _ _) as [[s|error]|] eqn:Ew; try discriminate E.
      injection E as <-. right. left. repeat split; trivial.
      apply waitForOperation_ends in Ew
        as [(_ & o & op & H')|[(o & e & _ & _ & _ & E')
                               |[(o & op & _ & _ & _ & _ & E')|(o & _ & _ & E')]]];
        try discriminate E'.
      exists o, op. exact H'.
    + injection E as <-. right. right. repeat split; trivial.
      intros api' Hsame. rewrite Hsame, Er, Hl. reflexivity.
  - injection E as <-. left. auto.
Qed.

(** X21: whatever goes wrong in a delete, the rejection of the remote
    API, a failed operation or a timeout of the wait, comes out as one of
    two structured errors: [NodeOperationError] "not found" exactly when
    what was caught carries the status 404, and [NodeApiError] "Failed to
    delete" otherwise. *)
Theorem executeDelete_raises (Noun noun : string) (api : DiskApi) (path : string)
    (permanently waitForCompletion : bool) (i : nat) (error : Caught) :
  executeDelete Noun noun api path permanently waitForCompletion i = Some (Raised error) ->
  exists caught,
    error = deleteCatch Noun noun path caught
    /\ (hasStatus 404 caught = true ->
          error = Thrown (NodeOperationError (Noun ++ " not found at path: " ++ path)))
    /\ (hasStatus 404 caught = false ->
          error = Thrown (NodeApiError ("Failed to delete " ++ noun ++ " at " ++ path)
                            (Some "Check your OAuth credentials and path")))
    /\ (api_remove api path permanently = Raised caught
        \/ exists result,
             api_remove api path permanently = Returned result
             /\ isOperationLink result = true /\ waitForCompletion = true
             /\ waitForOperation (startTime api) defaultTimeout
                  (observe api (getOperationId result)) = Some (Raised caught)).
Proof.
  unfold executeDelete.
  destruct (api_remove api path permanently) as [result|caught] eqn:Er.
  - destruct (isOperationLink result) eqn:Hl; [|discriminate].
    destruct waitForCompletion; [|discriminate].
    destruct (waitForOperation _ _ _) as [[s|caught]|] eqn:Ew; try discriminate.
    intros E; injection E as <-. exists caught. split; [reflexivity|].
    unfold deleteCatch. split; [intros ->; reflexivity|].
    split; [intros ->; reflexivity|]. right. exists result. auto.
  - intros E; injection E as <-. exists caught. split; [reflexivity|].
    unfold deleteCatch. split; [intros ->; reflexivity|].
    split; [intros ->; reflexivity|]. left. reflexivity.
Qed.

End Deleting.

(** ** The regular node *)

Section Executing.
Import Js Operations Node.

(** What one item adds to the output under [continueOnFail]. *)
Lemma processItems_continue (handle : nat -> attempt OperationResult)
    (indices : list nat) (returnData : list ExecutionData) :
  processItems true handle indices returnData
  = Returned (returnData
              ++ flat_map (fun i => match handle i with
                                    | Returned r => pushed r
                                    | Raised error => [errorEntry error i]
                                    end) indices)%list.
Proof.
  revert returnData. induction indices as [|i rest IH]; intros returnData;
    cbn [processItems flat_map].
  - rewrite app_nil_r. reflexivity.
  - destruct (handle i) as [r|error]; rewrite IH, <- app_assoc; reflexivity.
Qed.

Lemma processItems_stops (handle : nat -> attempt OperationResult)
    (before after : list nat) (k : nat) (error : Caught) (returnData : list ExecutionData) :
  (forall j, In j before -> exists r, handle j = Returned r) ->
  handle k = Raised error ->
  processItems false handle (before ++ k :: after)%list returnData = Raised error.
Proof.
  intros Hb Hk. revert returnData.
  induction before as [|j before IH]; intros returnData; cbn [processItems app].
  - rewrite Hk. reflexivity.
  - destruct (Hb j (or_introl eq_refl)) as [r ->]. apply IH.
    intros j' Hj'. apply Hb. right. exact Hj'.
Qed.

Lemma processItems_all (continue : bool) (handle : nat -> attempt OperationResult)
    (indices : list nat) (returnData : list ExecutionData) :
  (forall j, In j indices -> exists r, handle j = Returned r) ->
  processItems continue handle indices returnData
  = Returned (returnData
              ++ flat_map (fun i => match handle i with
                                    | Returned r => pushed r
                                    | Raised _ => []
                                    end) indices)%list.
Proof.
  revert returnData. induction indices as [|i rest IH]; intros returnData Hall;
    cbn [processItems flat_map].
  - rewrite app_nil_r. reflexivity.
  - destruct (Hall i (or_introl eq_refl)) as [r ->].
    rewrite IH, <- app_assoc; [reflexivity|].
    intros j Hj. apply Hall. right. exact Hj.
Qed.

Lemma seq_split (n k : nat) :
  (k < n)%nat -> seq 0 n = (seq 0 k ++ k :: seq (S k) (n - S k))%list.
Proof.
  intros Hk. replace n with (k + (n - k))%nat at 1 by lia.
  rewrite seq_app. f_equal. simpl.
  replace (n - k)%nat with (S (n - S k)) by lia. reflexivity.
Qed.

Lemma executeCatch_structured (error : Caught) :
  exists e, executeCatch error = Thrown e
            /\ isNodeApiError e || isNodeOperationError e = true.
Proof.
  destruct error as [status message|e]; cbn [executeCatch]; [eexists; split; reflexivity|].
  destruct (isNodeApiError e || isNodeOperationError e) eqn:E; eexists; split;
    try reflexivity. exact E.
Qed.

(** X22: with [continueOnFail], once the parameters, the credentials and
    the token are there, [execute] never throws: it returns one output
    that holds, in the order of the input items, what each item gave, or
    for an item that failed one record with the message of its error,
    [success: false] and the index of the item. *)
Theorem execute_continues_on_fail (this : IExecuteFunctions)
    (resource operation token : string) (credentials : Trigger.Credentials) :
  param_resource this = Ok resource ->
  param_operation this = Ok operation ->
  getCredentials this = Ok credentials ->
  tokenOf credentials = Ok token ->
  continueOnFail this = true ->
  execute this
  = Returned
      [flat_map (fun i => match route this resource operation token i with
                          | Returned r => pushed r
                          | Raised error => [errorEntry error i]
                          end) (seq 0 (inputLength this))].
Proof.
  intros Hr Ho Hc Ht Hf. unfold execute, executeBody.
  rewrite Hr, Ho, Hc, Ht, Hf, processItems_continue. reflexivity.
Qed.

(** X23: without [continueOnFail], the first item that fails ends the
    execution: nothing is returned, and what is thrown is the error of that
    item if it is a [NodeApiError] or a [NodeOperationError], and a
    [NodeApiError] that wraps it otherwise; when no item fails, the output
    holds what each item gave, in order. *)
Theorem execute_stops_at_first_failure (this : IExecuteFunctions)
    (resource operation token : string) (credentials : Trigger.Credentials) :
  param_resource this = Ok resource ->
  param_operation this = Ok operation ->
  getCredentials this = Ok credentials ->
  tokenOf credentials = Ok token ->
  continueOnFail this = false ->
  (forall k error,
     (k < inputLength this)%nat ->
     route this resource operation token k = Raised error ->
     (forall j, (j < k)%nat -> exists r, route this resource operation token j = Returned r) ->
     execute this = Raised (executeCatch error)
     /\ exists e, executeCatch error = Thrown e
                  /\ isNodeApiError e || isNodeOperationError e = true)
  /\ ((forall j, (j < inputLength this)%nat ->
         exists r, route this resource operation token j = Returned r) ->
      execute this
      = Returned
          [flat_map (fun i => match route this resource operation token i with
                              | Returned r => pushed r
                              | Raised _ => []
                              end) (seq 0 (inputLength this))]).
Proof.
  intros Hr Ho Hc Ht Hf. unfold execute, executeBody. rewrite Hr, Ho, Hc, Ht, Hf. split.
  - intros k error Hk Hfail Hbefore. split; [|apply executeCatch_structured].
    rewrite (seq_split _ _ Hk), (processItems_stops _ _ _ _ error); trivial.
    intros j Hj. apply in_seq in Hj. apply Hbefore. lia.
  - intros Hall. rewrite processItems_all; [reflexivity|].
    intros j Hj. apply in_seq in Hj. apply Hall. lia.
Qed.

(** X24: the credentials are read once, before the items: without a
    token [execute] throws the [NodeApiError] of its outermost [catch],
    whether or not [continueOnFail] is set, however many input items there
    are, and without routing any of them. *)
Theorem execute_needs_token (this : IExecuteFunctions)
    (resource operation : string) (credentials : Trigger.Credentials) :
  param_resource this = Ok resource ->
  param_operation this = Ok operation ->
  getCredentials this = Ok credentials ->
  Trigger.oauthToken credentials = None \/ Trigger.oauthToken credentials = Some "" ->
  execute this
  = Raised (Thrown (NodeApiError "An error occurred in Yandex 360 Disk node" None)).
Proof.
  intros Hr Ho Hc Htok. unfold execute, executeBody, tokenOf.
  rewrite Hr, Ho, Hc. destruct Htok as [-> | ->]; reflexivity.
Qed.

Lemma route_unknown_resource (this : IExecuteFunctions)
    (resource operation token : string) (i : nat) :
  resource <> "file" -> resource <> "folder" ->
  route this resource operation token i
  = Raised (Thrown (NodeOperationError ("Unknown resource: " ++ resource))).
Proof.
  intros Hf Hd. unfold route.
  destruct (String.eqb_spec resource "file"); [contradiction|].
  destruct (String.eqb_spec resource "folder"); [contradiction | reflexivity].
Qed.

Lemma route_folder_has_no (this : IExecuteFunctions) (operation token : string) (i : nat) :
  In operation ["upload"; "download"; "copy"; "move"] ->
  route this "folder" operation token i
  = Raised (Thrown (NodeOperationError ("Unknown folder operation: " ++ operation))).
Proof.
  intros Hin. simpl in Hin.
  destruct Hin as [<-|[<-|[<-|[<-|[]]]]]; reflexivity.
Qed.

(** X25: a resource that is neither [file] nor [folder], and a file-only
    operation (upload, download, copy, move) asked of a folder, fail every
    item with a [NodeOperationError]; it is thrown as it is at the first
    item, it is one error record per item under [continueOnFail], and with
    no input item at all nothing reports it: the output is empty. *)
Theorem execute_unknown_route (this : IExecuteFunctions)
    (resource operation token : string) (credentials : Trigger.Credentials) :
  param_resource this = Ok resource ->
  param_operation this = Ok operation ->
  getCredentials this = Ok credentials ->
  tokenOf credentials = Ok token ->
  (resource <> "file" /\ resource <> "folder")
  \/ (resource = "folder" /\ In operation ["upload"; "download"; "copy"; "move"]) ->
  let message :=
    if String.eqb resource "folder" then "Unknown folder operation: " ++ operation
    else "Unknown resource: " ++ resource in
  (inputLength this = 0%nat -> execute this = Returned [[]])
  /\ ((0 < inputLength this)%nat -> continueOnFail this = false ->
        execute this = Raised (Thrown (NodeOperationError message)))
  /\ (continueOnFail this = true ->
        execute this
        = Returned [List.map (errorEntry (Thrown (NodeOperationError message)))
                      (seq 0 (inputLength this))]).
Proof.
  intros Hr Ho Hc Ht Hbad message.
  assert (Hroute : forall i, route this resource operation token i
                             = Raised (Thrown (NodeOperationError message))).
  { subst message. destruct Hbad as [[Hf Hd]|[-> Hin]].
    - destruct (String.eqb_spec resource "folder"); [contradiction|].
      intros i. apply route_unknown_resource; assumption.
    - intros i. apply route_folder_has_no. exact Hin. }
  unfold execute, executeBody. rewrite Hr, Ho, Hc, Ht. split; [|split].
  - intros ->. reflexivity.
  - intros Hpos ->. destruct (inputLength this) as [|n]; [lia|].
    cbn [seq processItems]. rewrite Hroute. reflexivity.
  - intros ->. rewrite processItems_continue. cbn [app].
    assert (E : forall l,
              flat_map (fun i => match route this resource operation token i with
                                 | Returned r => pushed r
                                 | Raised error => [errorEntry error i]
                                 end) l
              = List.map (errorEntry (Thrown (NodeOperationError message))) l).
    { induction l as [|i l IH]; [reflexivity|].
      cbn [flat_map List.map]. rewrite Hroute, IH. reflexivity. }
    rewrite E. reflexivity.
Qed.

End Executing.

(** ** The further properties at concrete inputs *)

Section FurtherWitnesses.
Import Js Types GenericFunctions Trigger Runs Operations Node Examples MoreExamples.

#[local] Abbreviation pollAt := (Trigger.poll (H := IsoDate.date) mediaTypes).
#[local] Abbreviation runAt := (Trigger.runCycles (H := IsoDate.date) mediaTypes).

Lemma applyLimit_cap_witness :
  applyLimit delayed 0 = delayed
  /\ applyLimit delayed 10 = delayed
  /\ Z.of_nat (length (applyLimit delayed 2)) = 2.
Proof.
  destruct (applyLimit_cap delayed 0) as (Hzero & _).
  destruct (applyLimit_cap delayed 10) as (_ & Hall & _).
  destruct (applyLimit_cap delayed 2) as (_ & _ & Hcap).
  split; [apply Hzero; lia|]. split; [apply Hall; simpl; lia|].
  destruct Hcap as [Hlen _]; [lia|]. rewrite Hlen. reflexivity.
Defined.

Lemma applyLimit_compose_witness :
  applyLimit (applyLimit delayed 3) 2 = applyLimit delayed 2.
Proof. apply (applyLimit_compose delayed 3 2); lia. Defined.

Lemma stages_answer_sublists_witness :
  sublist [imagePng] [imagePng; noMimeType].
Proof.
  apply (proj1 (proj2 (proj2 (proj2 (stages_answer_sublists (H := IsoDate.date)
                                       [imagePng; noMimeType]))))
           "image" [imagePng]).
  reflexivity.
Defined.

Lemma windows_that_meet_witness :
  In itemB (filterByModifiedTime (H := IsoDate.date) [itemA; itemB]
              "2025-12-14T10:00:00Z" "2025-12-14T10:00:02Z").
Proof.
  apply (proj2 (windows_that_meet (H := IsoDate.date) [itemA; itemB]
                  "2025-12-14T10:00:00Z" "2025-12-14T10:00:01Z" "2025-12-14T10:00:02Z"
                  itemB)
           1765706400000 1765706401000 1765706402000 eq_refl eq_refl eq_refl);
    [lia|].
  right. vm_compute. tauto.
Defined.

Lemma empty_window_witness :
  filterByModifiedTime (H := IsoDate.date) delayed
    "2025-12-14T10:00:05Z" "2025-12-14T10:00:05Z" = [].
Proof.
  apply (empty_window (H := IsoDate.date)).
  intros ts te Hs He. rewrite Hs in He. injection He as <-. lia.
Defined.

Lemma categories_exclusive_witness :
  ~ In imagePng (List.filter (matchesPatterns ["video/"]) [imagePng; noMimeType]).
Proof.
  apply (categories_exclusive [imagePng; noMimeType] [imagePng; noMimeType]
           "image" "video" ["image/"] ["video/"] [imagePng]
           (List.filter (matchesPatterns ["video/"]) [imagePng; noMimeType]) imagePng);
    try reflexivity; [discriminate | simpl; tauto].
Defined.

Lemma pipeline_sound_witness :
  sublist [itemA] [itemA; itemB] /\ Z.of_nat (length [itemA]) <= 50.
Proof.
  destruct (pipeline_sound (H := IsoDate.date) mediaTypes
              (host "trigger" (apiWith [itemA; itemB]))
              hostParameters "2025-12-14T10:00:00Z" "2025-12-14T10:00:05Z"
              [itemA; itemB] [itemA] eq_refl) as (Hsub & Hlen & _).
  split; [exact Hsub|]. apply Hlen. reflexivity.
Defined.

Lemma manual_preview_unfiltered_witness :
  pollAt (host "manual" (apiWith [itemB])) atT0
  = (atT0, Ok (Some [returnJsonArray [itemB]])).
Proof.
  apply (proj1 (manual_preview_unfiltered (H := IsoDate.date) mediaTypes
                  (host "manual" (apiWith [itemB])) atT0 hostParameters
                  {| oauthToken := Some "y0_token" |} (apiWith [itemB])
                  {| status := 200; body := Some {| items := Some [itemB] |} |}
                  eq_refl eq_refl eq_refl eq_refl eq_refl)).
  discriminate.
Defined.

Lemma first_cycle_returns_null_witness :
  (None : option (list (list INodeExecutionData))) = None
  /\ (<["lastTimeChecked" := "2025-12-14T10:00:05Z"]> (∅ : gmap string string))
       !! "lastTimeChecked" = Some "2025-12-14T10:00:05Z".
Proof.
  apply (first_cycle_returns_null (H := IsoDate.date) mediaTypes
           (host "trigger" (apiWith [itemA; itemB])) ∅
           (<["lastTimeChecked" := "2025-12-14T10:00:05Z"]> ∅) None eq_refl).
  - left. reflexivity.
  - vm_compute. reflexivity.
Defined.

Lemma missing_token_aborts_witness :
  pollAt (hostWithoutToken "trigger") atT0
  = (atT0, Throw (NodeApiError "An error occurred in Yandex 360 Disk Trigger" None))
  /\ pollAt (hostWithoutToken "manual") atT0
     = (atT0, Throw (NodeApiError "An error occurred in Yandex 360 Disk Trigger" None)).
Proof.
  split.
  - apply (proj1 (missing_token_aborts (H := IsoDate.date) mediaTypes
                    (hostWithoutToken "trigger") atT0 _ eq_refl)
             {| oauthToken := None |} eq_refl).
    left. reflexivity.
  - apply (proj1 (missing_token_aborts (H := IsoDate.date) mediaTypes
                    (hostWithoutToken "manual") atT0 _ eq_refl)
             {| oauthToken := None |} eq_refl).
    left. reflexivity.
Defined.

Lemma run_touches_only_checkpoint_witness :
  runAt [host "manual" (apiWith [itemB]); host "trigger" (apiWith [itemA]);
         host "trigger" apiDown] atT0WithNote !! "note" = Some "kept".
Proof.
  rewrite (proj1 (run_touches_only_checkpoint (H := IsoDate.date) mediaTypes
                    [host "manual" (apiWith [itemB]); host "trigger" (apiWith [itemA]);
                     host "trigger" apiDown] atT0WithNote) "note");
    [reflexivity | discriminate].
Defined.

Lemma run_checkpoint_monotone_witness :
  exists t1 t2,
    checkpointTime (H := IsoDate.date)
      (runAt [host "trigger" (apiWith [itemA])] atT0) = Some t1
    /\ checkpointTime (H := IsoDate.date)
         (runAt ([host "trigger" (apiWith [itemA])]
                 ++ [host "manual" (apiWith [itemB]); host "trigger" apiDown])%list atT0)
       = Some t2
    /\ 1765706400000 <= t1 <= t2.
Proof.
  apply (run_checkpoint_monotone (H := IsoDate.date) mediaTypes); [reflexivity|].
  cbn [app clocksAscend].
  repeat (exists 1765706405000; split; [reflexivity|]; split; [lia|]). exact I.
Defined.

Lemma isOperationLink_spec_witness : isOperationLink operationLink = true.
Proof.
  apply (isOperationLink_spec operationLink).
  exists {| href := Some "https://cloud-api.yandex.net/v1/disk/operations/abc123?fields=status";
            method := Some "GET" |},
    "https://cloud-api.yandex.net/v1/disk", "abc123?fields=status".
  split; reflexivity.
Defined.

Lemma getOperationId_extracts_witness : getOperationId operationLink = "abc123".
Proof.
  apply (getOperationId_extracts "https://cloud-api.yandex.net/v1/disk" "abc123"
           "?fields=status" (Some "GET")); [reflexivity | discriminate | reflexivity|].
  right. eauto.
Defined.

Lemma getOperationId_sound_witness :
  isOperationLink operationLink = true
  /\ includes "?" (getOperationId operationLink) = false.
Proof.
  destruct (proj1 (getOperationId_sound operationLink)) as (Hl & Hq & _);
    [discriminate | auto].
Defined.

Lemma waitForOperation_outcomes_witness :
  exists o operation,
    In o slowSuccess /\ Date_now o - 0 < 30000
    /\ api_operation o = Returned operation /\ op_status operation = "success".
Proof.
  apply (proj1 (waitForOperation_outcomes 0 30000 slowSuccess (Returned "success")
                  eq_refl) "success" eq_refl).
Defined.

Lemma waitForOperation_bounded_witness :
  exists out,
    waitForOperation 0 30000 (stuck 31 0 1000) = Some out
    /\ waitForOperation 0 30000 (stuck 31 0 1000 ++ slowSuccess)%list = Some out.
Proof.
  apply (waitForOperation_bounded 0 30000 1000); [lia | | discriminate | simpl; lia].
  cbn. repeat split; lia.
Defined.

Lemma executeDelete_reports_witness :
  exists o operation,
    In o slowSuccess /\ Date_now o - 0 < defaultTimeout
    /\ api_operation o = Returned operation /\ op_status operation = "success".
Proof.
  destruct (executeDelete_reports "File" "file" asyncApi "disk:/a" false true 0
              (deleteCompleted "disk:/a" false 0) eq_refl)
    as (result & Hr & [[_ Hl]|[(_ & _ & _ & Hseen)|(_ & _ & Hw & _)]]).
  - injection Hr as <-. discriminate Hl.
  - injection Hr as <-. exact Hseen.
  - discriminate Hw.
Defined.

Lemma executeDelete_raises_witness :
  executeFileDelete missingApi "disk:/a" false true 0
  = Some (Raised (Thrown (NodeOperationError "File not found at path: disk:/a"))).
Proof.
  destruct (executeDelete_raises "File" "file" missingApi "disk:/a" false true 0
              (Thrown (NodeOperationError "File not found at path: disk:/a")) eq_refl)
    as (caught & _). reflexivity.
Defined.

Lemma execute_continues_on_fail_witness :
  execute (executeHost true "file" "delete" (Some "y0_token") 3)
  = Returned [[deleteCompleted "disk:/a" false 0;
               errorEntry (HttpFailure 423 "Resource is locked") 1;
               deleteCompleted "disk:/a" false 2]].
Proof.
  rewrite (execute_continues_on_fail (executeHost true "file" "delete" (Some "y0_token") 3)
             "file" "delete" "y0_token" {| oauthToken := Some "y0_token" |});
    reflexivity.
Defined.

Lemma execute_stops_at_first_failure_witness :
  execute (executeHost false "file" "delete" (Some "y0_token") 3)
  = Raised (Thrown (NodeApiError "An error occurred in Yandex 360 Disk node" None)).
Proof.
  destruct (execute_stops_at_first_failure
              (executeHost false "file" "delete" (Some "y0_token") 3)
              "file" "delete" "y0_token" {| oauthToken := Some "y0_token" |}
              eq_refl eq_refl eq_refl eq_refl eq_refl) as [Hstop _].
  destruct (Hstop 1%nat (HttpFailure 423 "Resource is locked")) as [E _].
  - simpl. lia.
  - reflexivity.
  - intros j Hj. assert (j = 0)%nat as -> by lia. eexists. reflexivity.
  - exact E.
Defined.

Lemma execute_needs_token_witness :
  execute (executeHost true "file" "delete" None 3)
  = Raised (Thrown (NodeApiError "An error occurred in Yandex 360 Disk node" None)).
Proof.
  apply (execute_needs_token (executeHost true "file" "delete" None 3) "file" "delete"
           {| oauthToken := None |}); try reflexivity.
  left. reflexivity.
Defined.

Lemma execute_unknown_route_witness :
  execute (executeHost false "folder" "copy" (Some "y0_token") 0) = Returned [[]]
  /\ execute (executeHost false "folder" "copy" (Some "y0_token") 2)
     = Raised (Thrown (NodeOperationError "Unknown folder operation: copy"))
  /\ execute (executeHost true "trash" "delete" (Some "y0_token") 2)
     = Returned [[errorEntry (Thrown (NodeOperationError "Unknown resource: trash")) 0;
                  errorEntry (Thrown (NodeOperationError "Unknown resource: trash")) 1]].
Proof.
  assert (Hfolder : "folder" = "folder"
                    /\ In "copy" ["upload"; "download"; "copy"; "move"])
    by (split; [reflexivity | simpl; tauto]).
  destruct (execute_unknown_route (executeHost false "folder" "copy" (Some "y0_token") 0)
              "folder" "copy" "y0_token" {| oauthToken := Some "y0_token" |}
              eq_refl eq_refl eq_refl eq_refl (or_intror Hfolder)) as (Hnone & _).
  destruct (execute_unknown_route (executeHost false "folder" "copy" (Some "y0_token") 2)
              "folder" "copy" "y0_token" {| oauthToken := Some "y0_token" |}
              eq_refl eq_refl eq_refl eq_refl (or_intror Hfolder)) as (_ & Hthrow & _).
  destruct (execute_unknown_route (executeHost true "trash" "delete" (Some "y0_token") 2)
              "trash" "delete" "y0_token" {| oauthToken := Some "y0_token" |}
              eq_refl eq_refl eq_refl eq_refl)
    as (_ & _ & Hrecords); [left; split; discriminate|].
  split; [apply Hnone; reflexivity|].
  split; [apply Hthrow; [simpl; lia | reflexivity]|].
  apply Hrecords. reflexivity.
Defined.

End FurtherWitnesses.
